(** * A shallow embedding of the BTC arbitrage bot's decision pipeline

    The development follows the Python sources under [backend/]:

    - [core/fee_engine.py]            -> [FeeEngine]
    - [core/arbitrage.py]             -> [Arbitrage]
    - [clients/polymarket_client.py]  -> [OrderBook]
    - [safety/circuit_breaker.py]     -> [CircuitBreaker]
    - [safety/risk_manager.py]        -> [RiskManager]
    - [safety/kill_switch.py]         -> [KillSwitch]
    - [execution/order_engine.py]     -> [OrderEngine]

    Python [float] values are kept behind the interface [PyFloat], so every
    function is written once, with the operations in the order the source
    performs them.  Two instances are given: exact rationals [Q] (used for the
    general theorems: arithmetic without rounding) and IEEE binary64
    [PrimFloat.float] (what CPython computes with; used to run the code on
    concrete inputs).  Wall-clock reads ([time.time()], [datetime.utcnow()])
    are an explicit [now] argument of the operation that performs them, and
    log output is left out.

    Part I is the program, Part II the vocabulary of the statements and the
    sample data of the test fixtures, Part III the properties. *)

From Stdlib Require Import ZArith QArith Qabs Qminmax Lqa List String Ascii Bool Lia.
From Stdlib Require Import Floats Uint63 DecimalString.
From Stdlib Require Import Sorted Permutation.
Import ListNotations.

Local Open Scope Z_scope.

(* ================================================================== *)
(** * Part I: the program *)
(* ================================================================== *)

(** ** Python numbers *)

(** Exceptions the modelled code can raise, and results of fallible code. *)
Inductive pyexc : Type := ZeroDivisionError | TypeError.

Inductive pyresult (A : Type) : Type :=
| Ok (a : A)
| Raise (e : pyexc).
Arguments Ok {A}.
Arguments Raise {A}.

(** The operations the sources use on [float].  [fdiv] is the quotient for
    a non-zero divisor; the [/] operator, which raises on a zero divisor, is
    [py_div] below. *)
Class PyFloat (F : Type) : Type := {
  of_int  : Z -> F;                 (* int -> float, as in [x / 100.0] *)
  fadd    : F -> F -> F;
  fsub    : F -> F -> F;
  fmul    : F -> F -> F;
  fdiv    : F -> F -> F;
  fneg    : F -> F;
  fabs    : F -> F;
  feqb    : F -> F -> bool;         (* [a == b] *)
  fltb    : F -> F -> bool;         (* [a < b]  *)
  fleb    : F -> F -> bool;         (* [a <= b] *)
  flt_inf : F -> bool               (* [a < float("inf")] *)
}.

Section PyOps.
Context {F : Type} `{PyFloat F}.

(** [a > b] and [a >= b]. *)
Definition fgtb (a b : F) : bool := fltb b a.
Definition fgeb (a b : F) : bool := fleb b a.

(** The builtins [max(a, b)] and [min(a, b)]: the first argument is kept
    unless the second is strictly better. *)
Definition py_max (a b : F) : F := if fgtb b a then b else a.
Definition py_min (a b : F) : F := if fltb b a then b else a.

(** [a / b] on floats. *)
Definition py_div (a b : F) : pyresult F :=
  if feqb b (of_int 0) then Raise ZeroDivisionError else Ok (fdiv a b).
End PyOps.

(** Exact rational arithmetic. *)
#[export] Instance PyFloat_Q : PyFloat Q := {|
  of_int  := inject_Z;
  fadd    := Qplus;
  fsub    := Qminus;
  fmul    := Qmult;
  fdiv    := Qdiv;
  fneg    := Qopp;
  fabs    := Qabs;
  feqb    := Qeq_bool;
  fltb    := fun a b => negb (Qle_bool b a);
  fleb    := Qle_bool;
  flt_inf := fun _ => true
|}.

(** IEEE binary64, the representation of CPython's [float].  [of_int]
    rounds an integer of any size to the nearest double, ties to even, as
    the conversion of an [int] operand does; beyond the range of doubles
    (from [2^1024] on, where CPython raises [OverflowError]) it gives an
    infinity. *)
Definition float_of_Z (z : Z) : float :=
  SF2Prim (binary_normalize prec emax z 0 false).

#[export] Instance PyFloat_binary64 : PyFloat float := {|
  of_int  := float_of_Z;
  fadd    := PrimFloat.add;
  fsub    := PrimFloat.sub;
  fmul    := PrimFloat.mul;
  fdiv    := PrimFloat.div;
  fneg    := PrimFloat.opp;
  fabs    := PrimFloat.abs;
  feqb    := PrimFloat.eqb;
  fltb    := PrimFloat.ltb;
  fleb    := PrimFloat.leb;
  flt_inf := fun a => PrimFloat.ltb a PrimFloat.infinity
|}.

(** ** Python values, strings and sorting *)

(** Truthiness of a [str]: the empty string is falsy. *)
Definition str_truthy (s : string) : bool :=
  match s with EmptyString => false | String _ _ => true end.

(** Truthiness of an [Optional[str]]. *)
Definition opt_str_truthy (o : option string) : bool :=
  match o with None => false | Some s => str_truthy s end.

(** [str(n)] for an [int]. *)
Definition str_of_int (n : Z) : string := NilZero.string_of_int (Z.to_int n).

#[local] Set Warnings "-register-all".

(** JSON-shaped Python values, as the venue clients return them.  A [dict]
    is an association list in insertion order. *)
Inductive pyval : Type :=
| PNone
| PBool (b : bool)
| PInt (n : Z)
| PStr (s : string)
| PList (l : list pyval)
| PDict (d : list (string * pyval)).

Definition pydict : Type := list (string * pyval).

(** [bool(v)]. *)
Definition truthy (v : pyval) : bool :=
  match v with
  | PNone => false
  | PBool b => b
  | PInt n => negb (n =? 0)
  | PStr s => str_truthy s
  | PList l => match l with [] => false | _ :: _ => true end
  | PDict d => match d with [] => false | _ :: _ => true end
  end.

(** [d.get(key)], [None] when the key is absent. *)
Fixpoint dict_get (d : pydict) (key : string) : option pyval :=
  match d with
  | [] => None
  | (k, v) :: rest => if String.eqb k key then Some v else dict_get rest key
  end.

(** [sorted(l, key=key)] and [sorted(l, key=key, reverse=True)]: a stable
    sort, here by insertion.  [insert_by] puts [x] after every element that
    is not strictly behind it, so equal keys keep their input order. *)
Section Sorting.
Context {A K : Type} (key : A -> K) (before : K -> K -> bool).

Fixpoint insert_by (x : A) (l : list A) : list A :=
  match l with
  | [] => [x]
  | y :: rest =>
      if before (key x) (key y) then x :: y :: rest
      else y :: insert_by x rest
  end.

Definition sorted_by (l : list A) : list A :=
  fold_left (fun acc x => insert_by x acc) l [].
End Sorting.

(** [l[start:stop]] for Python ints, negative indices included. *)
Definition clamp_index (len i : Z) : Z :=
  if i <? 0 then Z.max 0 (i + len) else Z.min i len.

Definition py_slice {A : Type} (l : list A) (start stop : Z) : list A :=
  let len := Z.of_nat (List.length l) in
  let s := clamp_index len start in
  let e := clamp_index len stop in
  firstn (Z.to_nat (e - s)) (skipn (Z.to_nat s) l).

(** ** [config/settings.py] *)

Record Settings (F : Type) : Type := mkSettings {
  (* None: the object has no such attribute; [getattr] supplies the default *)
  KILL_SWITCH_TOKEN : option string;
  DRY_RUN : bool;
  MAX_SINGLE_TRADE_USD : F;
  MAX_TOTAL_EXPOSURE_USD : F;
  MAX_DAILY_LOSS_USD : F;
  MAX_TRADES_PER_HOUR : Z;
  MIN_NET_MARGIN : F;
  KALSHI_FEE_PER_CONTRACT : F;
  POLYMARKET_GAS_COST : F;
  SLIPPAGE_BUFFER : F
}.
Arguments mkSettings {F}.
Arguments KILL_SWITCH_TOKEN {F}.
Arguments DRY_RUN {F}.
Arguments MAX_SINGLE_TRADE_USD {F}.
Arguments MAX_TOTAL_EXPOSURE_USD {F}.
Arguments MAX_DAILY_LOSS_USD {F}.
Arguments MAX_TRADES_PER_HOUR {F}.
Arguments MIN_NET_MARGIN {F}.
Arguments KALSHI_FEE_PER_CONTRACT {F}.
Arguments POLYMARKET_GAS_COST {F}.
Arguments SLIPPAGE_BUFFER {F}.

(** The defaults of [class Settings], as exact decimals. *)
Definition default_settings : Settings Q := {|
  KILL_SWITCH_TOKEN := Some EmptyString;
  DRY_RUN := true;
  MAX_SINGLE_TRADE_USD := 50 # 1;
  MAX_TOTAL_EXPOSURE_USD := 500 # 1;
  MAX_DAILY_LOSS_USD := 100 # 1;
  MAX_TRADES_PER_HOUR := 20;
  MIN_NET_MARGIN := 2 # 100;
  KALSHI_FEE_PER_CONTRACT := 3 # 100;
  POLYMARKET_GAS_COST := 2 # 1000;
  SLIPPAGE_BUFFER := 5 # 1000
|}.

(** ** [core/fee_engine.py] *)

Module FeeEngine.
Section WithFloat.
Context {F : Type} `{PyFloat F}.
Variable settings : Settings F.

Definition kalshi_fee (is_winning : bool) : F :=
  if negb is_winning then of_int 0
  else KALSHI_FEE_PER_CONTRACT settings.

Definition polymarket_fee : F := POLYMARKET_GAS_COST settings.

Definition worst_case_fees : F :=
  fadd (py_max (kalshi_fee true) polymarket_fee) (SLIPPAGE_BUFFER settings).

Definition fee_adjusted_cost (raw_total_cost : F) : F :=
  fadd raw_total_cost worst_case_fees.

Definition net_margin (raw_total_cost : F) : F :=
  fsub (of_int 1) (fee_adjusted_cost raw_total_cost).

Definition is_profitable (raw_total_cost : F) : bool :=
  fgeb (net_margin raw_total_cost) (MIN_NET_MARGIN settings).
End WithFloat.
End FeeEngine.

(** ** [core/models.py] and [core/arbitrage.py] *)

Module Arbitrage.

(** The fields of [PolymarketData] and [KalshiData] the detector reads. *)
Record PolymarketData (F : Type) : Type := {
  price_to_beat : option F;
  prices : list (string * F)
}.
Arguments price_to_beat {F}.
Arguments prices {F}.

Record KalshiMarket (F : Type) : Type := {
  strike : F;
  yes_bid : Z;
  yes_ask : Z;
  no_bid : Z;
  no_ask : Z;
  subtitle : string
}.
Arguments strike {F}.
Arguments yes_bid {F}.
Arguments yes_ask {F}.
Arguments no_bid {F}.
Arguments no_ask {F}.
Arguments subtitle {F}.

Record KalshiData (F : Type) : Type := {
  event_ticker : string;
  markets : list (KalshiMarket F)
}.
Arguments event_ticker {F}.
Arguments markets {F}.

Record ArbitrageCheck (F : Type) : Type := {
  kalshi_strike : F;
  kalshi_yes : F;
  kalshi_no : F;
  type : string;
  poly_leg : string;
  kalshi_leg : string;
  poly_cost : F;
  kalshi_cost : F;
  total_cost : F;
  fee_adjusted_cost : F;
  is_arbitrage : bool;
  margin : F;
  net_margin : F
}.
Arguments kalshi_strike {F}.
Arguments kalshi_yes {F}.
Arguments kalshi_no {F}.
Arguments type {F}.
Arguments poly_leg {F}.
Arguments kalshi_leg {F}.
Arguments poly_cost {F}.
Arguments kalshi_cost {F}.
Arguments total_cost {F}.
Arguments fee_adjusted_cost {F}.
Arguments is_arbitrage {F}.
Arguments margin {F}.
Arguments net_margin {F}.

Section WithFloat.
Context {F : Type} `{PyFloat F}.
Variable settings : Settings F.

(** [prices.get(name, 0.0)]. *)
Fixpoint prices_get (prices : list (string * F)) (name : string) : F :=
  match prices with
  | [] => of_int 0
  | (k, v) :: rest => if String.eqb k name then v else prices_get rest name
  end.

Definition _build_check (kalshi_strike kalshi_yes_cost kalshi_no_cost : F)
    (type_str poly_leg kalshi_leg : string) (poly_cost kalshi_cost : F)
    : ArbitrageCheck F :=
  let raw_total := fadd poly_cost kalshi_cost in
  let fee_adjusted := FeeEngine.fee_adjusted_cost settings raw_total in
  let raw_margin := fsub (of_int 1) raw_total in
  let net := FeeEngine.net_margin settings raw_total in
  let is_arb := FeeEngine.is_profitable settings raw_total in
  {| kalshi_strike := kalshi_strike;
     kalshi_yes := kalshi_yes_cost;
     kalshi_no := kalshi_no_cost;
     type := type_str;
     poly_leg := poly_leg;
     kalshi_leg := kalshi_leg;
     poly_cost := poly_cost;
     kalshi_cost := kalshi_cost;
     total_cost := raw_total;
     fee_adjusted_cost := fee_adjusted;
     is_arbitrage := is_arb;
     margin := raw_margin;
     net_margin := net |}.

(** The scan [for i, m in enumerate(sorted_markets)]: [min_diff] is
    [None] while it still holds the initial [float("inf")]. *)
Fixpoint closest_loop (ms : list (KalshiMarket F)) (poly_strike : F)
    (i closest_idx : Z) (min_diff : option F) : Z :=
  match ms with
  | [] => closest_idx
  | m :: rest =>
      let diff := fabs (fsub (strike m) poly_strike) in
      let closer :=
        match min_diff with
        | None => flt_inf diff
        | Some d => fltb diff d
        end in
      if closer then closest_loop rest poly_strike (i + 1) i (Some diff)
      else closest_loop rest poly_strike (i + 1) closest_idx min_diff
  end.

Definition _select_nearby_markets (sorted_markets : list (KalshiMarket F))
    (poly_strike : F) (radius : Z) : list (KalshiMarket F) :=
  match sorted_markets with
  | [] => []
  | _ :: _ =>
      let closest_idx := closest_loop sorted_markets poly_strike 0 0 None in
      let start := Z.max 0 (closest_idx - radius) in
      let stop := Z.min (Z.of_nat (List.length sorted_markets))
                        (closest_idx + radius + 1) in
      py_slice sorted_markets start stop
  end.

(** The body of [for km in selected] up to the inner loop: the one or
    two checks built for a market. *)
Definition strategy_checks (poly_strike poly_up_cost poly_down_cost : F)
    (km : KalshiMarket F) : list (ArbitrageCheck F) :=
  let kalshi_strike := strike km in
  let kalshi_yes_cost := fdiv (of_int (yes_ask km)) (of_int 100) in
  let kalshi_no_cost := fdiv (of_int (no_ask km)) (of_int 100) in
  if fgtb poly_strike kalshi_strike then
    [ _build_check kalshi_strike kalshi_yes_cost kalshi_no_cost
        "Poly > Kalshi" "Down" "Yes" poly_down_cost kalshi_yes_cost ]
  else if fltb poly_strike kalshi_strike then
    [ _build_check kalshi_strike kalshi_yes_cost kalshi_no_cost
        "Poly < Kalshi" "Up" "No" poly_up_cost kalshi_no_cost ]
  else
    [ _build_check kalshi_strike kalshi_yes_cost kalshi_no_cost
        "Equal" "Down" "Yes" poly_down_cost kalshi_yes_cost;
      _build_check kalshi_strike kalshi_yes_cost kalshi_no_cost
        "Equal" "Up" "No" poly_up_cost kalshi_no_cost ].

(** [for check in checks: all_checks.append(check); ...]. *)
Fixpoint record_checks (checks all_checks opportunities : list (ArbitrageCheck F))
    : list (ArbitrageCheck F) * list (ArbitrageCheck F) :=
  match checks with
  | [] => (all_checks, opportunities)
  | check :: rest =>
      let all_checks := all_checks ++ [check] in
      let opportunities :=
        if is_arbitrage check then opportunities ++ [check]
        else opportunities in
      record_checks rest all_checks opportunities
  end.

(** [for km in selected: ...]. *)
Fixpoint scan_selected (selected : list (KalshiMarket F))
    (poly_strike poly_up_cost poly_down_cost : F)
    (all_checks opportunities : list (ArbitrageCheck F))
    : list (ArbitrageCheck F) * list (ArbitrageCheck F) :=
  match selected with
  | [] => (all_checks, opportunities)
  | km :: rest =>
      let checks :=
        strategy_checks poly_strike poly_up_cost poly_down_cost km in
      let '(all_checks, opportunities) :=
        record_checks checks all_checks opportunities in
      scan_selected rest poly_strike poly_up_cost poly_down_cost
        all_checks opportunities
  end.

(** The markets [find_opportunities] scans for a given reference strike. *)
Definition selected_markets (poly_strike : F) (kalshi_data : KalshiData F)
    : list (KalshiMarket F) :=
  let kalshi_markets := sorted_by strike fltb (markets kalshi_data) in
  _select_nearby_markets kalshi_markets poly_strike 4.

Definition find_opportunities (poly_data : PolymarketData F)
    (kalshi_data : KalshiData F)
    : list (ArbitrageCheck F) * list (ArbitrageCheck F) :=
  match price_to_beat poly_data with
  | None => ([], [])
  | Some poly_strike =>
      let poly_up_cost := prices_get (prices poly_data) "Up" in
      let poly_down_cost := prices_get (prices poly_data) "Down" in
      let selected := selected_markets poly_strike kalshi_data in
      scan_selected selected poly_strike poly_up_cost poly_down_cost [] []
  end.
End WithFloat.
End Arbitrage.

(** ** [clients/polymarket_client.py]: the order book *)

Module OrderBook.

Record OrderBookLevel (F : Type) : Type := { price : F; size : F }.
Arguments price {F}.
Arguments size {F}.

Record OrderBook (F : Type) : Type := {
  bids : list (OrderBookLevel F);
  asks : list (OrderBookLevel F)
}.
Arguments bids {F}.
Arguments asks {F}.

Section WithFloat.
Context {F : Type} `{PyFloat F}.

(** [OrderBook.__init__]: bids highest first, asks lowest first. *)
Definition OrderBook_init (bids asks : list (OrderBookLevel F)) : OrderBook F :=
  {| bids := sorted_by price fgtb bids;
     asks := sorted_by price fltb asks |}.

Definition best_bid (book : OrderBook F) : F :=
  match bids book with [] => of_int 0 | l :: _ => price l end.

Definition best_ask (book : OrderBook F) : F :=
  match asks book with [] => of_int 0 | l :: _ => price l end.

(** The loop [for level in levels] of [fillable_amount]; each [break]
    returns the totals accumulated so far. *)
Fixpoint walk_levels (levels : list (OrderBookLevel F)) (side : string)
    (max_price max_usd total_contracts total_cost : F) : pyresult (F * F) :=
  match levels with
  | [] => Ok (total_contracts, total_cost)
  | level :: rest =>
      if String.eqb side "BUY" && fgtb (price level) max_price then
        Ok (total_contracts, total_cost)
      else if String.eqb side "SELL" && fltb (price level) max_price then
        Ok (total_contracts, total_cost)
      else
        let remaining_budget := fsub max_usd total_cost in
        if fleb remaining_budget (of_int 0) then
          Ok (total_contracts, total_cost)
        else
          match py_div remaining_budget (price level) with
          | Raise e => Raise e
          | Ok affordable_contracts =>
              let fill := py_min (size level) affordable_contracts in
              walk_levels rest side max_price max_usd
                (fadd total_contracts fill)
                (fadd total_cost (fmul fill (price level)))
          end
  end.

Definition fillable_amount (book : OrderBook F) (side : string)
    (max_price max_usd : F) : pyresult (F * F) :=
  let levels := if String.eqb side "BUY" then asks book else bids book in
  walk_levels levels side max_price max_usd (of_int 0) (of_int 0).

Definition spread (book : OrderBook F) : F :=
  if fgtb (best_ask book) (of_int 0) && fgtb (best_bid book) (of_int 0) then
    fsub (best_ask book) (best_bid book)
  else of_int 0.

(** [self.best_ask or self.best_bid]: the ask unless it is zero. *)
Definition mid_price (book : OrderBook F) : F :=
  if fgtb (best_ask book) (of_int 0) && fgtb (best_bid book) (of_int 0) then
    fdiv (fadd (best_ask book) (best_bid book)) (of_int 2)
  else if feqb (best_ask book) (of_int 0) then best_bid book
  else best_ask book.

(** [sum(...)] over floats, starting from [0]. *)
Definition py_sum (xs : list F) : F := fold_left fadd xs (of_int 0).

Definition total_ask_liquidity (book : OrderBook F) (max_price : F) : F :=
  py_sum (map size (filter (fun l => fleb (price l) max_price) (asks book))).

Definition total_bid_liquidity (book : OrderBook F) (min_price : F) : F :=
  py_sum (map size (filter (fun l => fgeb (price l) min_price) (bids book))).
End WithFloat.
End OrderBook.

(** ** Number formatting in f-strings *)

(** Conversions out of [float]: [f"{x:.nf}"], [f"{x:.n%}"], [round(x, n)]
    and [int(x)]. *)
Class PyFormat (F : Type) : Type := {
  format_f   : nat -> F -> string;
  format_pct : nat -> F -> string;
  fround     : nat -> F -> F;
  ftrunc     : F -> Z
}.

(** Left-pad with ['0'] up to [width] characters. *)
Definition pad_zeros (width : nat) (s : string) : string :=
  (String.concat "" (repeat "0" (width - String.length s)) ++ s)%string.

(** The integer nearest to [a / d] for [0 <= a], ties to even. *)
Definition round_half_even (a : Z) (d : positive) : Z :=
  let q := a / Zpos d in
  let r := a mod Zpos d in
  match 2 * r ?= Zpos d with
  | Lt => q
  | Gt => q + 1
  | Eq => if Z.even q then q else q + 1
  end.

(** Fixed-point formatting of an exact rational: sign, integer part and
    [digits] decimals, rounded half to even (so [-0.001] prints [-0.00],
    as in Python). *)
Definition Q_format_f (digits : nat) (x : Q) : string :=
  let scale := 10 ^ Z.of_nat digits in
  let v := round_half_even (Z.abs (Qnum x) * scale) (Qden x) in
  let sign := if Qnum x <? 0 then "-"%string else ""%string in
  let int_part := str_of_int (v / scale) in
  match digits with
  | O => (sign ++ int_part)%string
  | S _ =>
      (sign ++ int_part ++ "." ++ pad_zeros digits (str_of_int (v mod scale)))%string
  end.

(** [round(x, digits)]: the nearest multiple of [10^-digits], ties to even. *)
Definition Q_round (digits : nat) (x : Q) : Q :=
  let scale := 10 ^ Z.of_nat digits in
  let v := round_half_even (Z.abs (Qnum x) * scale) (Qden x) in
  Qmake (Z.sgn (Qnum x) * v) (Z.to_pos scale).

(** [int(x)]: truncation towards zero. *)
Definition Q_trunc (x : Q) : Z := Z.quot (Qnum x) (Zpos (Qden x)).

#[export] Instance PyFormat_Q : PyFormat Q := {|
  format_f   := Q_format_f;
  format_pct := fun digits x => (Q_format_f digits (x * 100) ++ "%")%string;
  fround     := Q_round;
  ftrunc     := Q_trunc
|}.

(** [s.lower()] on ASCII text. *)
Definition lower_ascii (c : ascii) : ascii :=
  let n := nat_of_ascii c in
  if ((65 <=? n) && (n <=? 90))%nat then ascii_of_nat (n + 32) else c.

Fixpoint lower (s : string) : string :=
  match s with
  | EmptyString => EmptyString
  | String c rest => String (lower_ascii c) (lower rest)
  end.

(** ** [safety/circuit_breaker.py] *)

Module CircuitBreaker.

Inductive CircuitState : Type := CLOSED | OPEN | HALF_OPEN.

Definition CircuitState_eqb (a b : CircuitState) : bool :=
  match a, b with
  | CLOSED, CLOSED | OPEN, OPEN | HALF_OPEN, HALF_OPEN => true
  | _, _ => false
  end.

(** Constructor arguments. *)
Record Config (F : Type) : Type := {
  max_consecutive_failures : Z;
  error_rate_threshold : F;
  error_rate_window_sec : Z;
  cooldown_sec : Z;
  staleness_threshold_sec : F
}.
Arguments max_consecutive_failures {F}.
Arguments error_rate_threshold {F}.
Arguments error_rate_window_sec {F}.
Arguments cooldown_sec {F}.
Arguments staleness_threshold_sec {F}.

(** The mutable attributes.  [_api_calls] is the deque, oldest first. *)
Record State (F : Type) : Type := mkState {
  _state : CircuitState;
  _consecutive_failures : Z;
  _last_state_change : F;
  _trip_reason : string;
  _api_calls : list (F * bool);
  _last_data_timestamp : F
}.
Arguments mkState {F}.
Arguments _state {F}.
Arguments _consecutive_failures {F}.
Arguments _last_state_change {F}.
Arguments _trip_reason {F}.
Arguments _api_calls {F}.
Arguments _last_data_timestamp {F}.

(** The defaults of [__init__]. *)
Definition default_config : Config Q := {|
  max_consecutive_failures := 3;
  error_rate_threshold := 50 # 100;
  error_rate_window_sec := 300;
  cooldown_sec := 300;
  staleness_threshold_sec := 30 # 1
|}.

Section WithFloat.
Context {F : Type} `{PyFloat F} `{PyFormat F}.
Variable cfg : Config F.

(** [__init__], run at time [now]. *)
Definition init (now : F) : State F :=
  mkState CLOSED 0 now "" [] now.

Definition set_failures (st : State F) (n : Z) : State F :=
  mkState (_state st) n (_last_state_change st) (_trip_reason st)
          (_api_calls st) (_last_data_timestamp st).

Definition set_api_calls (st : State F) (calls : list (F * bool)) : State F :=
  mkState (_state st) (_consecutive_failures st) (_last_state_change st)
          (_trip_reason st) calls (_last_data_timestamp st).

Definition set_trip_reason (st : State F) (reason : string) : State F :=
  mkState (_state st) (_consecutive_failures st) (_last_state_change st)
          reason (_api_calls st) (_last_data_timestamp st).

Definition _transition_to (st : State F) (new_state : CircuitState)
    (reason : string) (now : F) : State F :=
  mkState new_state (_consecutive_failures st) now (_trip_reason st)
          (_api_calls st) (_last_data_timestamp st).

(** [while calls and calls[0][0] < cutoff: calls.popleft()]. *)
Fixpoint drop_old (calls : list (F * bool)) (cutoff : F) : list (F * bool) :=
  match calls with
  | [] => []
  | c :: rest =>
      if fltb (fst c) cutoff then drop_old rest cutoff else c :: rest
  end.

Definition _clean_old_calls (st : State F) (now : F) : State F :=
  let cutoff := fsub now (of_int (error_rate_window_sec cfg)) in
  set_api_calls st (drop_old (_api_calls st) cutoff).

Definition count_failures (calls : list (F * bool)) : Z :=
  Z.of_nat (List.length (filter (fun c => negb (snd c)) calls)).

Definition _get_error_rate (st : State F) (now : F) : F * State F :=
  let st := _clean_old_calls st now in
  match _api_calls st with
  | [] => (of_int 0, st)
  | _ :: _ =>
      let failures := count_failures (_api_calls st) in
      (fdiv (of_int failures) (of_int (Z.of_nat (List.length (_api_calls st)))), st)
  end.

Definition trip (st : State F) (reason : string) (now : F) : State F :=
  let st := set_trip_reason st reason in
  let st := _transition_to st OPEN reason now in
  set_failures st 0.

Definition reset (st : State F) (now : F) : State F :=
  let st := _transition_to st CLOSED "manual reset" now in
  let st := set_failures st 0 in
  set_trip_reason st "".

(** The [state] property: reading it may move [OPEN] to [HALF_OPEN]. *)
Definition state (st : State F) (now : F) : CircuitState * State F :=
  let st :=
    if CircuitState_eqb (_state st) OPEN then
      let elapsed := fsub now (_last_state_change st) in
      if fgeb elapsed (of_int (cooldown_sec cfg)) then
        _transition_to st HALF_OPEN "cooldown elapsed" now
      else st
    else st in
  (_state st, st).

Definition is_trading_allowed (st : State F) (now : F) : bool * State F :=
  let '(current_state, st) := state st now in
  (CircuitState_eqb current_state CLOSED
   || CircuitState_eqb current_state HALF_OPEN, st).

Definition record_success (st : State F) (now : F) : State F :=
  let st := set_api_calls st (_api_calls st ++ [(now, true)]) in
  let st := _clean_old_calls st now in
  if CircuitState_eqb (_state st) HALF_OPEN then
    let st := _transition_to st CLOSED "half_open test succeeded" now in
    set_failures st 0
  else
    set_failures st 0.

Definition record_failure (st : State F) (reason : string) (now : F) : State F :=
  let st := set_api_calls st (_api_calls st ++ [(now, false)]) in
  let st := _clean_old_calls st now in
  let st := set_failures st (_consecutive_failures st + 1) in
  if CircuitState_eqb (_state st) HALF_OPEN then
    trip st ("half_open test failed: " ++ reason) now
  else if _consecutive_failures st >=? max_consecutive_failures cfg then
    trip st (str_of_int (_consecutive_failures st)
             ++ " consecutive failures: " ++ reason) now
  else
    let '(error_rate, st) := _get_error_rate st now in
    if fgtb error_rate (error_rate_threshold cfg)
       && (Z.of_nat (List.length (_api_calls st)) >=? 5) then
      trip st ("error rate " ++ format_pct 0 error_rate ++ " > "
               ++ format_pct 0 (error_rate_threshold cfg)) now
    else st.

Definition record_data_update (st : State F) (now : F) : State F :=
  mkState (_state st) (_consecutive_failures st) (_last_state_change st)
          (_trip_reason st) (_api_calls st) now.

Definition check_daily_loss (st : State F) (daily_pnl max_loss : F) (now : F)
    : bool * State F :=
  if fleb daily_pnl (fneg max_loss) then
    (false, trip st ("daily loss $" ++ format_f 2 (fabs daily_pnl)
                     ++ " >= max $" ++ format_f 2 max_loss) now)
  else (true, st).

(** [record_failure] called once per timestamp of [times], in order. *)
Fixpoint record_failures (st : State F) (reason : string) (times : list F)
    : State F :=
  match times with
  | [] => st
  | now :: rest => record_failures (record_failure st reason now) reason rest
  end.
End WithFloat.
End CircuitBreaker.

(** ** [safety/risk_manager.py] *)

Module RiskManager.

Record State (F : Type) : Type := mkState {
  _trade_timestamps : list F;     (* the deque, oldest first *)
  _daily_pnl : F;
  _total_exposure : F;
  _trade_count_today : Z;
  _is_halted : bool;
  _halt_reason : string
}.
Arguments mkState {F}.
Arguments _trade_timestamps {F}.
Arguments _daily_pnl {F}.
Arguments _total_exposure {F}.
Arguments _trade_count_today {F}.
Arguments _is_halted {F}.
Arguments _halt_reason {F}.

Section WithFloat.
Context {F : Type} `{PyFloat F} `{PyFormat F}.
Variable settings : Settings F.

Definition init : State F := mkState [] (of_int 0) (of_int 0) 0 false "".

Definition set_trade_timestamps (st : State F) (ts : list F) : State F :=
  mkState ts (_daily_pnl st) (_total_exposure st) (_trade_count_today st)
          (_is_halted st) (_halt_reason st).

(** [while ts and ts[0] < cutoff: ts.popleft()]. *)
Fixpoint drop_old (ts : list F) (cutoff : F) : list F :=
  match ts with
  | [] => []
  | t :: rest => if fltb t cutoff then drop_old rest cutoff else t :: rest
  end.

Definition _clean_old_timestamps (st : State F) (now : F) : State F :=
  let cutoff := fsub now (of_int 3600) in
  set_trade_timestamps st (drop_old (_trade_timestamps st) cutoff).

Definition check_trade_allowed (st : State F)
    (net_margin trade_cost_usd current_exposure : F) (now : F)
    : (bool * string) * State F :=
  (* Gate 0: kill switch / halt *)
  if _is_halted st then
    ((false, ("Trading halted: " ++ _halt_reason st)%string), st)
  (* Gate 1: minimum margin *)
  else if fltb net_margin (MIN_NET_MARGIN settings) then
    ((false, ("Net margin $" ++ format_f 4 net_margin ++ " < min $"
             ++ format_f 4 (MIN_NET_MARGIN settings))%string), st)
  (* Gate 2: max single trade *)
  else if fgtb trade_cost_usd (MAX_SINGLE_TRADE_USD settings) then
    ((false, ("Trade $" ++ format_f 2 trade_cost_usd ++ " > max $"
             ++ format_f 2 (MAX_SINGLE_TRADE_USD settings))%string), st)
  else
    (* Gate 3: max total exposure *)
    let projected_exposure := fadd current_exposure trade_cost_usd in
    if fgtb projected_exposure (MAX_TOTAL_EXPOSURE_USD settings) then
      ((false, ("Exposure $" ++ format_f 2 current_exposure ++ " + $"
               ++ format_f 2 trade_cost_usd ++ " = $"
               ++ format_f 2 projected_exposure ++ " > max $"
               ++ format_f 2 (MAX_TOTAL_EXPOSURE_USD settings))%string), st)
    (* Gate 4: daily loss limit *)
    else if fleb (_daily_pnl st) (fneg (MAX_DAILY_LOSS_USD settings)) then
      ((false, ("Daily loss $" ++ format_f 2 (fabs (_daily_pnl st))
               ++ " >= max $"
               ++ format_f 2 (MAX_DAILY_LOSS_USD settings))%string), st)
    else
      (* Gate 5: rate limit *)
      let st := _clean_old_timestamps st now in
      let n := Z.of_nat (List.length (_trade_timestamps st)) in
      if n >=? MAX_TRADES_PER_HOUR settings then
        ((false, ("Rate limit: " ++ str_of_int n ++ "/"
                 ++ str_of_int (MAX_TRADES_PER_HOUR settings)
                 ++ " trades/hr")%string), st)
      else
        ((true, "approved"%string), st).

Definition record_trade (st : State F) (pnl cost_usd : F) (now : F) : State F :=
  mkState (_trade_timestamps st ++ [now]) (fadd (_daily_pnl st) pnl)
          (fadd (_total_exposure st) cost_usd) (_trade_count_today st + 1)
          (_is_halted st) (_halt_reason st).

Definition close_position (st : State F) (cost_usd : F) : State F :=
  mkState (_trade_timestamps st) (_daily_pnl st)
          (py_max (of_int 0) (fsub (_total_exposure st) cost_usd))
          (_trade_count_today st) (_is_halted st) (_halt_reason st).

Definition halt (st : State F) (reason : string) : State F :=
  mkState (_trade_timestamps st) (_daily_pnl st) (_total_exposure st)
          (_trade_count_today st) true reason.

Definition resume (st : State F) : State F :=
  mkState (_trade_timestamps st) (_daily_pnl st) (_total_exposure st)
          (_trade_count_today st) false "".

Definition reset_daily (st : State F) : State F :=
  mkState (_trade_timestamps st) (of_int 0) (_total_exposure st) 0
          (_is_halted st) (_halt_reason st).

Definition get_trades_this_hour (st : State F) (now : F) : Z * State F :=
  let st := _clean_old_timestamps st now in
  (Z.of_nat (List.length (_trade_timestamps st)), st).
End WithFloat.
End RiskManager.

(** ** [safety/kill_switch.py] *)

Module KillSwitch.

(** [hmac.compare_digest] on two [str]: equality, and [TypeError] unless
    both are ASCII.  Characters are taken to be code points below 256. *)
Fixpoint is_ascii (s : string) : bool :=
  match s with
  | EmptyString => true
  | String c rest => (nat_of_ascii c <? 128)%nat && is_ascii rest
  end.

Definition compare_digest (a b : string) : pyresult bool :=
  if is_ascii a && is_ascii b then Ok (String.eqb a b) else Raise TypeError.

Section ValidateToken.
Context {F : Type}.
(** The cached [get_settings()] singleton. *)
Variable get_settings : Settings F.

Definition validate_token (provided_token : string)
    (settings : option (Settings F)) : pyresult bool :=
  let s := match settings with Some s => s | None => get_settings end in
  let expected :=
    match KILL_SWITCH_TOKEN s with Some t => t | None => ""%string end in
  if negb (str_truthy expected) then Ok false
  else if negb (str_truthy provided_token) then Ok false
  else compare_digest provided_token expected.
End ValidateToken.

Section Switch.
(** [datetime] values and their [isoformat()]. *)
Variable datetime : Type.
Variable isoformat : datetime -> string.

Record State : Type := mkState {
  _is_active : bool;
  _activated_at : option datetime;
  _reason : string
}.

(** The sentinel file: [None] when it does not exist, else its text. *)
Definition KillFile : Type := option string.

Definition exists_ (file : KillFile) : bool :=
  match file with Some _ => true | None => false end.

(** What the file system does with one request: carry it out, or fail
    with [OSError] and leave the file as it was. *)
Inductive io_outcome : Type := IoOk | IoOSError.

Definition newline : string := String (ascii_of_nat 10) EmptyString.

(** [__init__] at time [now]. *)
Definition init (file : KillFile) (now : datetime) : State :=
  if exists_ file then
    mkState true (Some now) "kill switch file found on startup"
  else
    mkState false None "".

Definition activate (st : State) (file : KillFile) (reason : string)
    (now : datetime) (write : io_outcome) : State * KillFile :=
  let st := mkState true (Some now) reason in
  let file :=
    match write with
    | IoOk =>
        Some ("KILL SWITCH ACTIVATED" ++ newline
              ++ "Time: " ++ isoformat now ++ newline
              ++ "Reason: " ++ reason ++ newline)%string
    | IoOSError => file
    end in
  (st, file).

Definition deactivate (st : State) (file : KillFile) (reason : string)
    (unlink : io_outcome) : State * KillFile :=
  let st := mkState false None "" in
  let file :=
    if exists_ file then
      match unlink with
      | IoOk => None
      | IoOSError => file
      end
    else file in
  (st, file).

(** The [is_active] property, read at time [now]. *)
Definition is_active (st : State) (file : KillFile) (now : datetime)
    : bool * State :=
  if exists_ file then
    if negb (_is_active st) then
      (true, mkState true (Some now) "kill switch file detected")
    else (true, st)
  else (_is_active st, st).
End Switch.
Arguments mkState {datetime}.
Arguments _is_active {datetime}.
Arguments _activated_at {datetime}.
Arguments _reason {datetime}.
Arguments init {datetime}.
Arguments activate {datetime}.
Arguments deactivate {datetime}.
Arguments is_active {datetime}.
End KillSwitch.

(** ** [execution/position_tracker.py] *)

Module PositionTracker.

Inductive Platform : Type := KALSHI | POLYMARKET.
Inductive PositionSide : Type := LONG | SHORT.

Record Position (F : Type) : Type := {
  id : string;
  platform : Platform;
  side : PositionSide;
  ticker : string;
  entry_price : F;
  size : Z;
  cost_usd : F;
  linked_position_id : option string
}.
Arguments id {F}.
Arguments platform {F}.
Arguments side {F}.
Arguments ticker {F}.
Arguments entry_price {F}.
Arguments size {F}.
Arguments cost_usd {F}.
Arguments linked_position_id {F}.

Record ArbitragePosition (F : Type) : Type := {
  arb_id : string;
  kalshi_position : option (Position F);
  poly_position : option (Position F);
  arb_total_cost : F;
  expected_payout : F;
  expected_profit : F;
  status : string
}.
Arguments arb_id {F}.
Arguments kalshi_position {F}.
Arguments poly_position {F}.
Arguments arb_total_cost {F}.
Arguments expected_payout {F}.
Arguments expected_profit {F}.
Arguments status {F}.

(** The two ledgers are dicts keyed by id, in insertion order. *)
Record State (F : Type) : Type := mkState {
  _positions : list (string * Position F);
  _arb_positions : list (string * ArbitragePosition F);
  _position_counter : Z;
  _arb_counter : Z
}.
Arguments mkState {F}.
Arguments _positions {F}.
Arguments _arb_positions {F}.
Arguments _position_counter {F}.
Arguments _arb_counter {F}.

Section WithFloat.
Context {F : Type} `{PyFloat F} `{PyFormat F}.

Definition init : State F := mkState [] [] 0 0.

(** [d[k] = v]: replace in place when the key exists, else append. *)
Fixpoint dict_set {V : Type} (d : list (string * V)) (k : string) (v : V)
    : list (string * V) :=
  match d with
  | [] => [(k, v)]
  | (k', v') :: rest =>
      if String.eqb k' k then (k, v) :: rest
      else (k', v') :: dict_set rest k v
  end.

Definition open_position (st : State F) (platform : Platform)
    (side : PositionSide) (ticker : string) (entry_price : F) (size : Z)
    (linked_position_id : option string) : Position F * State F :=
  let counter := _position_counter st + 1 in
  let pos_id := ("POS-" ++ pad_zeros 6 (str_of_int counter))%string in
  let position :=
    {| id := pos_id; platform := platform; side := side; ticker := ticker;
       entry_price := entry_price; size := size;
       cost_usd := fround 6 (fmul entry_price (of_int size));
       linked_position_id := linked_position_id |} in
  (position,
   mkState (dict_set (_positions st) pos_id position) (_arb_positions st)
           counter (_arb_counter st)).

Definition open_arbitrage (st : State F) (kalshi_position poly_position : Position F)
    (expected_profit : F) : ArbitragePosition F * State F :=
  let counter := _arb_counter st + 1 in
  let arb_id := ("ARB-" ++ pad_zeros 6 (str_of_int counter))%string in
  let total_cost := fadd (cost_usd kalshi_position) (cost_usd poly_position) in
  let arb :=
    {| arb_id := arb_id;
       kalshi_position := Some kalshi_position;
       poly_position := Some poly_position;
       arb_total_cost := fround 6 total_cost;
       expected_payout := of_int 1;
       expected_profit := fround 6 expected_profit;
       status := "open" |} in
  (arb,
   mkState (_positions st) (dict_set (_arb_positions st) arb_id arb)
           (_position_counter st) counter).

(** [sum(p.cost_usd for p in self._positions.values())]. *)
Definition get_total_exposure (st : State F) : F :=
  fold_left (fun acc p => fadd acc (cost_usd (snd p))) (_positions st) (of_int 0).

Definition get_open_position_count (st : State F) : Z :=
  Z.of_nat (List.length (_positions st)).

(** [d.get(k)] and [d.pop(k, None)] on a ledger. *)
Fixpoint dict_lookup {V : Type} (d : list (string * V)) (k : string) : option V :=
  match d with
  | [] => None
  | (k', v) :: rest => if String.eqb k' k then Some v else dict_lookup rest k
  end.

Fixpoint dict_pop {V : Type} (d : list (string * V)) (k : string)
    : option V * list (string * V) :=
  match d with
  | [] => (None, [])
  | (k', v) :: rest =>
      if String.eqb k' k then (Some v, rest)
      else let '(found, rest') := dict_pop rest k in (found, (k', v) :: rest')
  end.

Definition close_position (st : State F) (position_id : string)
    : option (Position F) * State F :=
  let '(pos, positions) := dict_pop (_positions st) position_id in
  (pos, mkState positions (_arb_positions st) (_position_counter st)
                (_arb_counter st)).

Definition settle_arbitrage (st : State F) (arb_id : string)
    : option (ArbitragePosition F) * State F :=
  match dict_lookup (_arb_positions st) arb_id with
  | None => (None, st)
  | Some arb =>
      let arb :=
        {| arb_id := PositionTracker.arb_id arb;
           kalshi_position := kalshi_position arb;
           poly_position := poly_position arb;
           arb_total_cost := arb_total_cost arb;
           expected_payout := expected_payout arb;
           expected_profit := expected_profit arb;
           status := "settled" |} in
      let st := mkState (_positions st) (dict_set (_arb_positions st) arb_id arb)
                        (_position_counter st) (_arb_counter st) in
      let st :=
        match kalshi_position arb with
        | Some p => snd (close_position st (id p))
        | None => st
        end in
      let st :=
        match poly_position arb with
        | Some p => snd (close_position st (id p))
        | None => st
        end in
      (Some arb, st)
  end.

Definition Platform_eqb (a b : Platform) : bool :=
  match a, b with
  | KALSHI, KALSHI | POLYMARKET, POLYMARKET => true
  | _, _ => false
  end.

Definition get_platform_exposure (st : State F) (platform : Platform) : F :=
  fold_left (fun acc p => fadd acc (cost_usd (snd p)))
            (filter (fun p => Platform_eqb (PositionTracker.platform (snd p)) platform)
                    (_positions st))
            (of_int 0).

Definition get_open_arbitrage_count (st : State F) : Z :=
  Z.of_nat (List.length
              (filter (fun a => String.eqb (status (snd a)) "open")
                      (_arb_positions st))).
End WithFloat.
End PositionTracker.

(** ** [execution/order_engine.py] *)

Module ExecutionStatus.
Inductive t : Type :=
| SUCCESS | DRY_RUN | PREFLIGHT_FAILED | LEG1_FAILED | LEG2_FAILED
| UNWOUND | ERROR.
End ExecutionStatus.

Module OrderEngine.

(** What a venue client returns: [(response, error)]. *)
Definition venue_reply : Type := option pydict * option string.

(** The requests the engine sends to the venues, in the order sent. *)
Inductive VenueCall (F : Type) : Type :=
| KalshiPlaceOrder (ticker side action : string) (count price_cents : Z)
                   (order_type : string)
| PolyPlaceOrder (token_id side : string) (price size : F) (order_type : string)
| KalshiCancelOrder (order_id : pyval).
Arguments KalshiPlaceOrder {F}.
Arguments PolyPlaceOrder {F}.
Arguments KalshiCancelOrder {F}.

Record ExecutionResult (F : Type) : Type := {
  status : ExecutionStatus.t;
  opportunity : option (Arbitrage.ArbitrageCheck F);
  leg1_result : option pydict;
  leg2_result : option pydict;
  position_id : option string;
  error : option string
}.
Arguments status {F}.
Arguments opportunity {F}.
Arguments leg1_result {F}.
Arguments leg2_result {F}.
Arguments position_id {F}.
Arguments error {F}.

Record State (F : Type) : Type := mkState {
  tracker : PositionTracker.State F;
  _trade_count_this_hour : Z;
  _daily_loss : F;
  sent : list (VenueCall F)
}.
Arguments mkState {F}.
Arguments tracker {F}.
Arguments _trade_count_this_hour {F}.
Arguments _daily_loss {F}.
Arguments sent {F}.

Section WithFloat.
Context {F : Type} `{PyFloat F} `{PyFormat F}.
Variable settings : Settings F.

(** The venues' answers to the engine's requests. *)
Variable kalshi_place_order :
  string -> string -> string -> Z -> Z -> string -> venue_reply.
Variable poly_place_order :
  string -> string -> F -> F -> string -> venue_reply.
Variable kalshi_cancel_order : pyval -> venue_reply.

Definition init : State F := mkState PositionTracker.init 0 (of_int 0) [].

Definition log_call (st : State F) (c : VenueCall F) : State F :=
  mkState (tracker st) (_trade_count_this_hour st) (_daily_loss st)
          (sent st ++ [c]).

Definition _preflight_check (st : State F) (opp : Arbitrage.ArbitrageCheck F)
    : bool * option string :=
  if fltb (Arbitrage.net_margin opp) (MIN_NET_MARGIN settings) then
    (false, Some ("Net margin $" ++ format_f 4 (Arbitrage.net_margin opp)
                  ++ " below min $"
                  ++ format_f 4 (MIN_NET_MARGIN settings))%string)
  else if _trade_count_this_hour st >=? MAX_TRADES_PER_HOUR settings then
    (false, Some ("Rate limit: " ++ str_of_int (_trade_count_this_hour st)
                  ++ "/" ++ str_of_int (MAX_TRADES_PER_HOUR settings)
                  ++ " trades this hour")%string)
  else
    let current_exposure := PositionTracker.get_total_exposure (tracker st) in
    let trade_cost := Arbitrage.total_cost opp in
    if fgtb (fadd current_exposure trade_cost)
            (MAX_TOTAL_EXPOSURE_USD settings) then
      (false, Some ("Exposure limit: $" ++ format_f 2 current_exposure
                    ++ " + $" ++ format_f 2 trade_cost ++ " > $"
                    ++ format_f 2 (MAX_TOTAL_EXPOSURE_USD settings))%string)
    else if fgtb trade_cost (MAX_SINGLE_TRADE_USD settings) then
      (false, Some ("Single trade $" ++ format_f 2 trade_cost ++ " > max $"
                    ++ format_f 2 (MAX_SINGLE_TRADE_USD settings))%string)
    else if fgeb (_daily_loss st) (MAX_DAILY_LOSS_USD settings) then
      (false, Some ("Daily loss $" ++ format_f 2 (_daily_loss st)
                    ++ " >= max $"
                    ++ format_f 2 (MAX_DAILY_LOSS_USD settings))%string)
    else (true, None).

Definition _execute_kalshi_leg (st : State F) (opp : Arbitrage.ArbitrageCheck F)
    : venue_reply * State F :=
  let side := lower (Arbitrage.kalshi_leg opp) in
  let price_cents := ftrunc (fmul (Arbitrage.kalshi_cost opp) (of_int 100)) in
  let ticker :=
    ("KXBTCD-STRIKE-" ++ str_of_int (ftrunc (Arbitrage.kalshi_strike opp)))%string in
  (kalshi_place_order ticker side "buy" 1 price_cents "limit",
   log_call st (KalshiPlaceOrder ticker side "buy" 1 price_cents "limit")).

Definition _execute_poly_leg (st : State F) (opp : Arbitrage.ArbitrageCheck F)
    : venue_reply * State F :=
  let side := "BUY"%string in
  let price := Arbitrage.poly_cost opp in
  (poly_place_order "placeholder_token_id" side price (of_int 1) "FOK",
   log_call st (PolyPlaceOrder "placeholder_token_id" side price (of_int 1) "FOK")).

(** [leg1_result.get("order", {})], then [order.get("order_id")] when the
    order is a dict. *)
Definition leg1_order_id (leg1_result : pydict) : pyval :=
  let order :=
    match dict_get leg1_result "order" with
    | Some v => v
    | None => PDict []
    end in
  match order with
  | PDict d =>
      match dict_get d "order_id" with Some v => v | None => PNone end
  | _ => PNone
  end.

Definition _attempt_unwind_kalshi (st : State F) (leg1_result : option pydict)
    : bool * State F :=
  match leg1_result with
  | None | Some [] => (true, st)            (* nothing to unwind *)
  | Some ((_ :: _) as d) =>
      let order_id := leg1_order_id d in
      if negb (truthy order_id) then (false, st)
      else
        let '(_, err) := kalshi_cancel_order order_id in
        let st := log_call st (KalshiCancelOrder order_id) in
        if opt_str_truthy err then (false, st) else (true, st)
  end.

Definition _record_positions (st : State F) (opp : Arbitrage.ArbitrageCheck F)
    : string * State F :=
  let kalshi_side :=
    if String.eqb (lower (Arbitrage.kalshi_leg opp)) "yes"
    then PositionTracker.LONG else PositionTracker.SHORT in
  let poly_side :=
    if String.eqb (Arbitrage.poly_leg opp) "Up"
       || String.eqb (Arbitrage.poly_leg opp) "up"
    then PositionTracker.LONG else PositionTracker.SHORT in
  let '(kalshi_pos, tr) :=
    PositionTracker.open_position (tracker st) PositionTracker.KALSHI
      kalshi_side
      ("KXBTCD-" ++ str_of_int (ftrunc (Arbitrage.kalshi_strike opp)))%string
      (Arbitrage.kalshi_cost opp) 1 None in
  let '(poly_pos, tr) :=
    PositionTracker.open_position tr PositionTracker.POLYMARKET poly_side
      ("poly-" ++ Arbitrage.poly_leg opp)%string
      (Arbitrage.poly_cost opp) 1 (Some (PositionTracker.id kalshi_pos)) in
  let '(arb, tr) :=
    PositionTracker.open_arbitrage tr kalshi_pos poly_pos
      (Arbitrage.net_margin opp) in
  (PositionTracker.arb_id arb,
   mkState tr (_trade_count_this_hour st) (_daily_loss st) (sent st)).

Definition execute_arbitrage (st : State F) (opportunity : Arbitrage.ArbitrageCheck F)
    : ExecutionResult F * State F :=
  (* Step 1: pre-flight checks *)
  let '(preflight_ok, preflight_err) := _preflight_check st opportunity in
  if negb preflight_ok then
    ({| status := ExecutionStatus.PREFLIGHT_FAILED;
        opportunity := Some opportunity;
        leg1_result := None; leg2_result := None; position_id := None;
        error := preflight_err |}, st)
  (* Step 2: DRY_RUN gate *)
  else if DRY_RUN settings then
    ({| status := ExecutionStatus.DRY_RUN;
        opportunity := Some opportunity;
        leg1_result := None; leg2_result := None; position_id := None;
        error := None |}, st)
  else
    (* Step 3: leg 1, Kalshi *)
    let '((leg1_result, leg1_err), st) := _execute_kalshi_leg st opportunity in
    if opt_str_truthy leg1_err then
      ({| status := ExecutionStatus.LEG1_FAILED;
          opportunity := Some opportunity;
          leg1_result := None; leg2_result := None; position_id := None;
          error := Some ("Kalshi leg failed: "
                         ++ match leg1_err with Some e => e | None => "" end)%string |},
       st)
    else
      (* Step 4: leg 2, Polymarket *)
      let '((leg2_result, leg2_err), st) := _execute_poly_leg st opportunity in
      if opt_str_truthy leg2_err then
        let '(unwind_ok, st) := _attempt_unwind_kalshi st leg1_result in
        let status :=
          if unwind_ok then ExecutionStatus.UNWOUND
          else ExecutionStatus.LEG2_FAILED in
        ({| status := status;
            opportunity := Some opportunity;
            leg1_result := leg1_result; leg2_result := None;
            position_id := None;
            error := Some ("Poly leg failed: "
                           ++ match leg2_err with Some e => e | None => "" end
                           ++ ". Unwind: "
                           ++ (if unwind_ok then "success" else "FAILED"))%string |},
         st)
      else
        (* Step 5: both legs filled *)
        let '(position_id, st) := _record_positions st opportunity in
        let st := mkState (tracker st) (_trade_count_this_hour st + 1)
                          (_daily_loss st) (sent st) in
        ({| status := ExecutionStatus.SUCCESS;
            opportunity := Some opportunity;
            leg1_result := leg1_result; leg2_result := leg2_result;
            position_id := Some position_id;
            error := None |}, st).

Definition reset_hourly_counter (st : State F) : State F :=
  mkState (tracker st) 0 (_daily_loss st) (sent st).

Definition reset_daily_loss (st : State F) : State F :=
  mkState (tracker st) (_trade_count_this_hour st) (of_int 0) (sent st).
End WithFloat.
End OrderEngine.

(** ** [clients/kalshi_client.py]: strike parsing *)

Module KalshiClient.

(** [float(text)] either gives a number or raises [ValueError]. *)
Inductive float_parse (F : Type) : Type :=
| Parsed (x : F)
| ValueError.
Arguments Parsed {F}.
Arguments ValueError {F}.

(** [\d] and [[\d,]] on text of code points below 256. *)
Definition is_digit (c : ascii) : bool :=
  let n := nat_of_ascii c in ((48 <=? n) && (n <=? 57))%nat.

Definition is_digit_or_comma (c : ascii) : bool :=
  is_digit c || Ascii.eqb c ","%char.

(** The longest prefix matched by [[\d,]*]. *)
Fixpoint digit_run (s : string) : string :=
  match s with
  | EmptyString => EmptyString
  | String c rest =>
      if is_digit_or_comma c then String c (digit_run rest) else EmptyString
  end.

(** [re.search(r'\$([\d,]+)', s)]: group 1 of the leftmost match. *)
Fixpoint search_strike (s : string) : option string :=
  match s with
  | EmptyString => None
  | String c rest =>
      if Ascii.eqb c "$"%char then
        match digit_run rest with
        | EmptyString => search_strike rest
        | String _ _ as group => Some group
        end
      else search_strike rest
  end.

(** [group.replace(',', '')]. *)
Fixpoint remove_commas (s : string) : string :=
  match s with
  | EmptyString => EmptyString
  | String c rest =>
      if Ascii.eqb c ","%char then remove_commas rest
      else String c (remove_commas rest)
  end.

(** The value of a string of decimal digits, most significant first. *)
Fixpoint digits_value (s : string) (acc : Z) : Z :=
  match s with
  | EmptyString => acc
  | String c rest =>
      digits_value rest (10 * acc + (Z.of_nat (nat_of_ascii c) - 48))
  end.

Section WithFloat.
Context {F : Type} `{PyFloat F}.

(** [float(text)] for text made of decimal digits only, as
    [parse_strike] passes it: the empty text is an error. *)
Definition float_of_digits (text : string) : float_parse F :=
  match text with
  | EmptyString => ValueError
  | String _ _ => Parsed (of_int (digits_value text 0))
  end.

Definition parse_strike (subtitle : string) : float_parse F :=
  match search_strike subtitle with
  | Some group => float_of_digits (remove_commas group)
  | None => Parsed (of_int 0)
  end.
End WithFloat.
End KalshiClient.

(** ** [api.py]: the protected kill-switch endpoints *)

Module Api.

(** How a protected request ends before its handler runs: it passes, is
    answered 401 or 403, or an exception escapes the check. *)
Inductive auth_outcome : Type :=
| Authorized
| Http401
| Http403
| Escaped (e : pyexc).

(** [s.upper()] on ASCII letters. *)
Definition upper_ascii (c : ascii) : ascii :=
  let n := nat_of_ascii c in
  if ((97 <=? n) && (n <=? 122))%nat then ascii_of_nat (n - 32) else c.

Fixpoint upper (s : string) : string :=
  match s with
  | EmptyString => EmptyString
  | String c rest => String (upper_ascii c) (upper rest)
  end.

(** [needle in s]. *)
Fixpoint contains (needle s : string) : bool :=
  String.prefix needle s
  || match s with
     | EmptyString => false
     | String _ rest => contains needle rest
     end.

Definition _SECRET_FIELDS : list string :=
  [ "KALSHI_API_KEY"; "KALSHI_PRIVATE_KEY_PATH"; "POLYMARKET_PRIVATE_KEY";
    "KILL_SWITCH_TOKEN"; "password"; "secret"; "token"; "private_key" ]%string.

Definition secret_words : list string :=
  [ "key"; "secret"; "token"; "password"; "private" ]%string.

(** The condition of the comprehension in [_scrub_secrets]. *)
Definition keeps_key (k : string) : bool :=
  negb (existsb (String.eqb (upper k)) _SECRET_FIELDS)
  && negb (existsb (fun s => contains s (lower k)) secret_words).

Definition _scrub_secrets (data : pydict) : pydict :=
  filter (fun kv => keeps_key (fst kv)) data.

Section Endpoints.
Context {F : Type} `{PyFloat F} `{PyFormat F}.
Variable datetime : Type.
Variable isoformat : datetime -> string.
(** The module-level [settings]. *)
Variable settings : Settings F.

Definition _validate_bearer_token (authorization : string) : auth_outcome :=
  if negb (str_truthy authorization)
     || negb (String.prefix "Bearer " authorization) then Http401
  else
    let token :=
      String.substring 7 (String.length authorization - 7) authorization in
    match KillSwitch.validate_token settings token (Some settings) with
    | Ok true => Authorized
    | Ok false => Http403
    | Raise e => Escaped e
    end.

(** The safety singletons of the module and the sentinel file. *)
Record Safety : Type := mkSafety {
  kill_switch : KillSwitch.State datetime;
  kill_file : KillSwitch.KillFile;
  risk_manager : RiskManager.State F;
  circuit_breaker : CircuitBreaker.State F
}.

(** [POST /kill-switch], as far as the safety singletons go (the event
    log and the response body are left out). *)
Definition activate_kill_switch (sys : Safety) (authorization : string)
    (utcnow : datetime) (now : F) (write : KillSwitch.io_outcome)
    : auth_outcome * Safety :=
  match _validate_bearer_token authorization with
  | Authorized =>
      let reason := "API kill switch activated"%string in
      let '(ks, file) :=
        KillSwitch.activate isoformat (kill_switch sys) (kill_file sys) reason
          utcnow write in
      let rm := RiskManager.halt (risk_manager sys) reason in
      let cb := CircuitBreaker.trip (circuit_breaker sys) reason now in
      (Authorized, mkSafety ks file rm cb)
  | refused => (refused, sys)
  end.

(** [POST /kill-switch/deactivate]. *)
Definition deactivate_kill_switch (sys : Safety) (authorization : string)
    (now : F) (unlink : KillSwitch.io_outcome) : auth_outcome * Safety :=
  match _validate_bearer_token authorization with
  | Authorized =>
      let '(ks, file) :=
        KillSwitch.deactivate (kill_switch sys) (kill_file sys)
          "API deactivation" unlink in
      let rm := RiskManager.resume (risk_manager sys) in
      let cb := CircuitBreaker.reset (circuit_breaker sys) now in
      (Authorized, mkSafety ks file rm cb)
  | refused => (refused, sys)
  end.
End Endpoints.
Arguments mkSafety {F datetime}.
Arguments kill_switch {F datetime}.
Arguments kill_file {F datetime}.
Arguments risk_manager {F datetime}.
Arguments circuit_breaker {F datetime}.
End Api.

(* ================================================================== *)
(** * Part II: vocabulary of the statements and sample data *)
(* ================================================================== *)

(** The six gates in the order of the specification, the condition under
    which each one rejects, and the opening words of its reason. *)
Inductive Gate : Type :=
| GateHalt | GateMargin | GateSingleTrade | GateExposure | GateDailyLoss
| GateRate.

Definition gate_order : list Gate :=
  [GateHalt; GateMargin; GateSingleTrade; GateExposure; GateDailyLoss; GateRate].

Definition gate_label (g : Gate) : string :=
  match g with
  | GateHalt => "Trading halted: "
  | GateMargin => "Net margin $"
  | GateSingleTrade => "Trade $"
  | GateExposure => "Exposure $"
  | GateDailyLoss => "Daily loss $"
  | GateRate => "Rate limit: "
  end.

Section RiskGateConditions.
Context {F : Type} `{PyFloat F}.
Variable settings : Settings F.
Variable st : RiskManager.State F.
Variables net_margin trade_cost_usd current_exposure now : F.

Definition gate_fails (g : Gate) : bool :=
  match g with
  | GateHalt => RiskManager._is_halted st
  | GateMargin => fltb net_margin (MIN_NET_MARGIN settings)
  | GateSingleTrade => fgtb trade_cost_usd (MAX_SINGLE_TRADE_USD settings)
  | GateExposure =>
      fgtb (fadd current_exposure trade_cost_usd)
           (MAX_TOTAL_EXPOSURE_USD settings)
  | GateDailyLoss =>
      fleb (RiskManager._daily_pnl st) (fneg (MAX_DAILY_LOSS_USD settings))
  | GateRate =>
      Z.of_nat (List.length
                  (RiskManager.drop_old (RiskManager._trade_timestamps st)
                                        (fsub now (of_int 3600))))
      >=? MAX_TRADES_PER_HOUR settings
  end.

Definition first_failing_gate : option Gate := find gate_fails gate_order.
End RiskGateConditions.

Section BreakerBookkeeping.
Context {F : Type} `{PyFloat F}.
Variable cfg : CircuitBreaker.Config F.

(** The breaker as [record_failure] has it after the bookkeeping and before
    the three tests. *)
Definition counted (st : CircuitBreaker.State F) (now : F) : CircuitBreaker.State F :=
  CircuitBreaker.set_failures
    (CircuitBreaker._clean_old_calls cfg
       (CircuitBreaker.set_api_calls st
          (CircuitBreaker._api_calls st ++ [(now, false)])) now)
    (CircuitBreaker._consecutive_failures st + 1).
End BreakerBookkeeping.

(** Live settings: the defaults with [DRY_RUN] switched off. *)
Definition live_settings : Settings Q :=
  mkSettings (Some "secret"%string) false (50 # 1) (500 # 1) (100 # 1) 20
             (2 # 100) (3 # 100) (2 # 1000) (5 # 1000).

(** The clean arbitrage of the specification: Poly Down at 0.35 with Kalshi
    Yes at 0.55 on the 95500 strike. *)
Definition clean_opportunity : Arbitrage.ArbitrageCheck Q :=
  Arbitrage._build_check live_settings (95500 # 1) (55 # 100) (45 # 100)
    "Poly > Kalshi" "Down" "Yes" (35 # 100) (55 # 100).

(** The markets and quotes of the test fixtures. *)
Definition market (strike : Q) (yes_bid yes_ask no_bid no_ask : Z)
    : Arbitrage.KalshiMarket Q :=
  {| Arbitrage.strike := strike;
     Arbitrage.yes_bid := yes_bid; Arbitrage.yes_ask := yes_ask;
     Arbitrage.no_bid := no_bid; Arbitrage.no_ask := no_ask;
     Arbitrage.subtitle := "" |}.

Definition sample_poly_data : Arbitrage.PolymarketData Q :=
  {| Arbitrage.price_to_beat := Some (96000 # 1);
     Arbitrage.prices := [("Up"%string, 55 # 100); ("Down"%string, 45 # 100)] |}.

Definition sample_kalshi_data : Arbitrage.KalshiData Q :=
  {| Arbitrage.event_ticker := "KXBTCD-26FEB1621";
     Arbitrage.markets :=
       [ market (94000 # 1) 90 92 6 8;
         market (95000 # 1) 75 78 20 22;
         market (95500 # 1) 65 68 30 32;
         market (96000 # 1) 50 53 45 47;
         market (96500 # 1) 35 38 60 62;
         market (97000 # 1) 20 23 75 77;
         market (98000 # 1) 8 10 88 90 ] |}.





Section DepthWalkVocabulary.
Context {F : Type} `{PyFloat F}.

(** The two price tests of the loop, as one condition: the level does not
    break the limit. *)
Definition limit_ok (side : string) (max_price : F) (level : OrderBook.OrderBookLevel F)
    : bool :=
  negb (String.eqb side "BUY" && fgtb (OrderBook.price level) max_price)
  && negb (String.eqb side "SELL" && fltb (OrderBook.price level) max_price).

(** The levels up to the first one that breaks the limit. *)
Fixpoint within_limit (side : string) (max_price : F)
    (levels : list (OrderBook.OrderBookLevel F)) : list (OrderBook.OrderBookLevel F) :=
  match levels with
  | [] => []
  | level :: rest =>
      if limit_ok side max_price level
      then level :: within_limit side max_price rest
      else []
  end.
End DepthWalkVocabulary.

(** The comparison laws the float arithmetic is used with.  Binary64 and
    the exact rationals both satisfy them (shown in Part III); they hold
    with NaN and the infinities present. *)
Class PyFloatOrder (F : Type) `{PyFloat F} : Prop := {
  (* [a < b] excludes [b <= a] *)
  flt_not_ge : forall a b : F, fltb a b = true -> fleb b a = false;
  (* below something that [x] is not below: strictly below [x] *)
  flt_below : forall d m x : F,
    fltb d m = true -> fltb x m = false -> fleb x d = false;
  (* [x < d] gives [x <= d] *)
  fle_of_lt : forall x d : F, fleb x d = false -> fltb x d = false;
  (* the same as [flt_below], against [float("inf")] *)
  flt_inf_below : forall d x : F,
    flt_inf d = true -> flt_inf x = false -> fleb x d = false;
  (* what is below something is below infinity *)
  flt_inf_of_lt : forall a b : F, fltb a b = true -> flt_inf a = true
}.

(** The place of a double in the order of [<]: NaN has none; the others
    are ordered as these triples, lexicographically. *)
Definition sf_key (f : spec_float) : option (Z * Z * Z) :=
  match f with
  | S754_zero _ => Some (0, 0, 0)
  | S754_infinity s => Some (if s then -2 else 2, 0, 0)
  | S754_nan => None
  | S754_finite s m e =>
      if s then Some (-1, - e, Z.neg m) else Some (1, e, Z.pos m)
  end.

Definition lex_lt (a b : Z * Z * Z) : Prop :=
  let '(a1, a2, a3) := a in
  let '(b1, b2, b3) := b in
  a1 < b1 \/ (a1 = b1 /\ (a2 < b2 \/ (a2 = b2 /\ a3 < b3))).

Section ScanVocabulary.
Context {F : Type} `{PyFloat F}.

(** The distance the scan computes for a market: [abs(m.strike -
    poly_strike)], in the arithmetic of the code. *)
Definition computed_distance (Kstar : F) (m : Arbitrage.KalshiMarket F) : F :=
  fabs (fsub (Arbitrage.strike m) Kstar).

(** Index [i] holds market [m], whose computed distance is below infinity;
    no market has a strictly smaller computed distance, and no market
    before [i] has one that is smaller or equal. *)
Definition chosen_at (ms : list (Arbitrage.KalshiMarket F)) (Kstar : F)
    (i : nat) (m : Arbitrage.KalshiMarket F) : Prop :=
  nth_error ms i = Some m
  /\ flt_inf (computed_distance Kstar m) = true
  /\ (forall j mj, nth_error ms j = Some mj ->
        fltb (computed_distance Kstar mj) (computed_distance Kstar m) = false)
  /\ (forall j mj, (j < i)%nat -> nth_error ms j = Some mj ->
        fleb (computed_distance Kstar mj) (computed_distance Kstar m) = false).

(** The index the scan settles on: the first index of least computed
    distance, or 0 when no computed distance is below infinity (a NaN or
    infinite reference strike, for one). *)
Definition scan_choice (ms : list (Arbitrage.KalshiMarket F)) (Kstar : F)
    (i : nat) : Prop :=
  (exists m, chosen_at ms Kstar i m)
  \/ (i = 0%nat
      /\ forall j mj, nth_error ms j = Some mj ->
            flt_inf (computed_distance Kstar mj) = false).

(** The loop invariant of the scan, in any arithmetic. *)
Definition scan_state (seen : list (Arbitrage.KalshiMarket F)) (Kstar : F)
    (closest_idx : Z) (min_diff : option F) : Prop :=
  match min_diff with
  | None =>
      closest_idx = 0
      /\ forall j mj, nth_error seen j = Some mj ->
            flt_inf (computed_distance Kstar mj) = false
  | Some d =>
      0 <= closest_idx
      /\ exists m, d = computed_distance Kstar m
                   /\ chosen_at seen Kstar (Z.to_nat closest_idx) m
  end.
End ScanVocabulary.

(** The defaults of [class Settings] as the doubles Python reads them
    as: 0.02, 0.03, 0.002 and 0.005 are the nearest doubles. *)
Definition default_settings_binary64 : Settings float :=
  mkSettings (Some EmptyString) true 50%float 500%float 100%float 20
             0x1.47ae147ae147bp-6%float 0x1.eb851eb851eb8p-6%float
             0x1.0624dd2f1a9fcp-9%float 0x1.47ae147ae147bp-8%float.

(** Twelve markets with strikes 1.0 to 12.0, and a snapshot whose
    reference strike is 2^54, far above them: there [strike - 2^54] is not
    representable for odd strikes and rounds. *)
Definition market_binary64 (strike : float) : Arbitrage.KalshiMarket float :=
  {| Arbitrage.strike := strike;
     Arbitrage.yes_bid := 50; Arbitrage.yes_ask := 52;
     Arbitrage.no_bid := 46; Arbitrage.no_ask := 48;
     Arbitrage.subtitle := "" |}.

Definition far_kalshi_data : Arbitrage.KalshiData float :=
  {| Arbitrage.event_ticker := "KXBTCD-26FEB1621";
     Arbitrage.markets :=
       map market_binary64
         [ 1%float; 2%float; 3%float; 4%float; 5%float; 6%float;
           7%float; 8%float; 9%float; 10%float; 11%float; 12%float ] |}.

Definition far_poly_data : Arbitrage.PolymarketData float :=
  {| Arbitrage.price_to_beat := Some 0x1p+54%float;
     Arbitrage.prices :=
       [ ("Up"%string, 0x1.199999999999ap-1%float);
         ("Down"%string, 0x1.ccccccccccccdp-2%float) ] |}.

(* ================================================================== *)
(** * Part III: properties *)
(* ================================================================== *)

(** ** The comparisons of the exact instance *)

Lemma fltb_Q_true (a b : Q) : fltb a b = true <-> (a < b)%Q.
Proof.
  cbn. rewrite negb_true_iff. split; intro Hab.
  - apply Qnot_le_lt. intro Hle. apply Qle_bool_iff in Hle. congruence.
  - destruct (Qle_bool b a) eqn:E; [|reflexivity].
    apply Qle_bool_iff in E. exfalso. apply (Qlt_not_le _ _ Hab E).
Qed.

Lemma fltb_Q_false (a b : Q) : fltb a b = false <-> (b <= a)%Q.
Proof.
  cbn. rewrite negb_false_iff. apply Qle_bool_iff.
Qed.

Lemma fleb_Q_true (a b : Q) : fleb a b = true <-> (a <= b)%Q.
Proof. cbn. apply Qle_bool_iff. Qed.

Lemma fleb_Q_false (a b : Q) : fleb a b = false <-> (b < a)%Q.
Proof.
  cbn. split; intro Hab.
  - apply Qnot_le_lt. intro Hle. apply Qle_bool_iff in Hle. congruence.
  - destruct (Qle_bool a b) eqn:E; [|reflexivity].
    apply Qle_bool_iff in E. exfalso. apply (Qlt_not_le _ _ Hab E).
Qed.

Lemma py_max_Q (a b : Q) : py_max a b = Qmax a b.
Proof.
  unfold py_max, fgtb, Qmax, GenericMinMax.gmax.
  destruct (a ?= b)%Q eqn:C.
  - apply Qeq_alt in C.
    assert (E : fltb a b = false) by (apply fltb_Q_false; rewrite C; apply Qle_refl).
    rewrite E. reflexivity.
  - apply Qlt_alt in C. apply fltb_Q_true in C. rewrite C. reflexivity.
  - apply Qgt_alt in C.
    assert (E : fltb a b = false) by (apply fltb_Q_false, Qlt_le_weak, C).
    rewrite E. reflexivity.
Qed.

Lemma py_min_Q_le (a b : Q) : (py_min a b <= a)%Q /\ (py_min a b <= b)%Q.
Proof.
  unfold py_min. destruct (fltb b a) eqn:E.
  - apply fltb_Q_true in E. split; [apply Qlt_le_weak; exact E | apply Qle_refl].
  - apply fltb_Q_false in E. split; [apply Qle_refl | exact E].
Qed.

(** ** The comparison laws of the two instances *)

#[export] Instance PyFloatOrder_Q : PyFloatOrder Q.
Proof.
  constructor.
  - intros a b Hlt. apply fltb_Q_true in Hlt. apply fleb_Q_false. exact Hlt.
  - intros d m x Hdm Hxm. apply fltb_Q_true in Hdm. apply fltb_Q_false in Hxm.
    apply fleb_Q_false. eapply Qlt_le_trans; eassumption.
  - intros x d Hle. apply fleb_Q_false in Hle. apply fltb_Q_false.
    apply Qlt_le_weak. exact Hle.
  - intros d x _ Hx. discriminate Hx.
  - intros a b _. reflexivity.
Qed.

Lemma pos_compare_cont_Eq (p q : positive) :
  PosDef.Pos.compare_cont Eq p q = (Z.pos p ?= Z.pos q).
Proof. reflexivity. Qed.

(** [SFcompare] orders the doubles that have a key as their keys. *)
Lemma SFcompare_key (a b : spec_float) :
  match SFcompare a b with
  | None => sf_key a = None \/ sf_key b = None
  | Some c =>
      exists ka kb, sf_key a = Some ka /\ sf_key b = Some kb
                    /\ match c with
                       | Lt => lex_lt ka kb
                       | Eq => ka = kb
                       | Gt => lex_lt kb ka
                       end
  end.
Proof.
  destruct a as [sa|sa| |sa ma ea], b as [sb|sb| |sb mb eb]; cbn;
    try (left; reflexivity); try (right; reflexivity);
    try (destruct sa); try (destruct sb); cbn;
    try (do 2 eexists; split; [reflexivity|split; [reflexivity|]]; cbn;
         try reflexivity; lia).
  - destruct (Z.compare_spec ea eb).
    + subst. rewrite pos_compare_cont_Eq.
      destruct (Z.compare_spec (Z.pos ma) (Z.pos mb)); cbn;
        do 2 eexists; (split; [reflexivity|split; [reflexivity|]]); cbn.
      * congruence.
      * lia.
      * lia.
    + do 2 eexists; (split; [reflexivity|split; [reflexivity|]]); cbn. lia.
    + do 2 eexists; (split; [reflexivity|split; [reflexivity|]]); cbn. lia.
  - destruct (Z.compare_spec ea eb).
    + subst. rewrite pos_compare_cont_Eq.
      destruct (Z.compare_spec (Z.pos ma) (Z.pos mb)); cbn;
        do 2 eexists; (split; [reflexivity|split; [reflexivity|]]); cbn.
      * congruence.
      * lia.
      * lia.
    + do 2 eexists; (split; [reflexivity|split; [reflexivity|]]); cbn. lia.
    + do 2 eexists; (split; [reflexivity|split; [reflexivity|]]); cbn. lia.
Qed.

Lemma SFltb_true (a b : spec_float) :
  SFltb a b = true ->
  exists ka kb, sf_key a = Some ka /\ sf_key b = Some kb /\ lex_lt ka kb.
Proof.
  unfold SFltb. pose proof (SFcompare_key a b) as Hk.
  destruct (SFcompare a b) as [[| |]|]; try discriminate. intros _. exact Hk.
Qed.

Lemma SFltb_false (a b : spec_float) (ka kb : Z * Z * Z) :
  sf_key a = Some ka -> sf_key b = Some kb -> SFltb a b = false ->
  ~ lex_lt ka kb.
Proof.
  unfold SFltb. intros Ha Hb. pose proof (SFcompare_key a b) as Hk.
  destruct (SFcompare a b) as [[| |]|]; try discriminate; intros _.
  - destruct Hk as (ka' & kb' & Ha' & Hb' & Heq).
    rewrite Ha in Ha'. rewrite Hb in Hb'. injection Ha' as <-. injection Hb' as <-.
    subst kb. destruct ka as [[a1 a2] a3]. cbn. lia.
  - destruct Hk as (ka' & kb' & Ha' & Hb' & Hgt).
    rewrite Ha in Ha'. rewrite Hb in Hb'. injection Ha' as <-. injection Hb' as <-.
    destruct ka as [[a1 a2] a3], kb as [[b1 b2] b3]. cbn in *. lia.
  - destruct Hk as [Hk | Hk]; congruence.
Qed.

Lemma SFleb_false (a b : spec_float) :
  sf_key a = None \/ sf_key b = None
  \/ (exists ka kb, sf_key a = Some ka /\ sf_key b = Some kb /\ lex_lt kb ka) ->
  SFleb a b = false.
Proof.
  unfold SFleb. intros Hcase. pose proof (SFcompare_key a b) as Hk.
  destruct (SFcompare a b) as [[| |]|]; try reflexivity; exfalso;
    destruct Hk as (ka & kb & Ha & Hb & Hrel);
    destruct Hcase as [Hn | [Hn | (ka' & kb' & Ha' & Hb' & Hlt)]];
    try congruence;
    rewrite Ha in Ha'; rewrite Hb in Hb'; injection Ha' as <-; injection Hb' as <-;
    destruct ka as [[a1 a2] a3], kb as [[b1 b2] b3]; cbn in *.
  - injection Hrel as -> -> ->. lia.
  - lia.
Qed.

(** The key of [float("inf")] is above every other key. *)
Lemma sf_key_below_inf (a : spec_float) (ka : Z * Z * Z) :
  sf_key a = Some ka ->
  lex_lt ka (2, 0, 0) \/ ka = (2, 0, 0).
Proof.
  destruct a as [s|s| |s m e]; cbn; try discriminate.
  - intros [= <-]. left. cbn. lia.
  - destruct s; intros [= <-]; [left; cbn; lia | right; reflexivity].
  - destruct s; intros [= <-]; left; cbn; lia.
Qed.

#[export] Instance PyFloatOrder_binary64 : PyFloatOrder float.
Proof.
  assert (Hinf : Prim2SF infinity = S754_infinity false) by reflexivity.
  constructor; cbn [fltb fleb flt_inf PyFloat_binary64].
  - intros a b Hlt. rewrite FloatAxioms.ltb_spec in Hlt. rewrite FloatAxioms.leb_spec.
    destruct (SFltb_true _ _ Hlt) as (ka & kb & Ha & Hb & Hrel).
    apply SFleb_false. right. right. exists kb, ka. auto.
  - intros d m x Hdm Hxm. rewrite FloatAxioms.ltb_spec in Hdm, Hxm. rewrite FloatAxioms.leb_spec.
    destruct (SFltb_true _ _ Hdm) as (kd & km & Hd & Hm & Hrel).
    apply SFleb_false. destruct (sf_key (Prim2SF x)) as [kx|] eqn:Ex;
      [|left; reflexivity].
    right. right. exists kx, kd. split; [reflexivity|]. split; [exact Hd|].
    pose proof (SFltb_false _ _ kx km Ex Hm Hxm) as Hn.
    destruct kd as [[d1 d2] d3], km as [[m1 m2] m3], kx as [[x1 x2] x3].
    cbn in *. lia.
  - intros x d. rewrite FloatAxioms.ltb_spec, FloatAxioms.leb_spec. unfold SFltb, SFleb.
    destruct (SFcompare (Prim2SF x) (Prim2SF d)) as [[| |]|]; congruence.
  - intros d x Hd Hx. rewrite FloatAxioms.ltb_spec, Hinf in Hd, Hx. rewrite FloatAxioms.leb_spec.
    destruct (SFltb_true _ _ Hd) as (kd & ki & Hkd & Hki & Hrel).
    cbn in Hki. injection Hki as <-.
    apply SFleb_false. destruct (sf_key (Prim2SF x)) as [kx|] eqn:Ex;
      [|left; reflexivity].
    right. right. exists kx, kd. split; [reflexivity|]. split; [exact Hkd|].
    pose proof (SFltb_false _ (S754_infinity false) kx (2, 0, 0) Ex eq_refl Hx) as Hn.
    destruct (sf_key_below_inf _ _ Ex) as [Hlt | ->]; [contradiction|].
    exact Hrel.
  - intros a b Hlt. rewrite FloatAxioms.ltb_spec in Hlt. rewrite FloatAxioms.ltb_spec, Hinf.
    destruct (SFltb_true _ _ Hlt) as (ka & kb & Ha & Hb & Hrel).
    destruct (SFltb (Prim2SF a) (S754_infinity false)) eqn:E; [reflexivity|].
    pose proof (SFltb_false _ (S754_infinity false) ka (2, 0, 0) Ha eq_refl E) as Hn.
    destruct (sf_key_below_inf _ _ Ha) as [Hl | ->]; [contradiction|].
    destruct (sf_key_below_inf _ _ Hb) as [Hl | Hl].
    + destruct kb as [[b1 b2] b3]. cbn in *. lia.
    + subst kb. cbn in Hrel. lia.
Qed.

(** ** C4: the fee engine *)

(** C4.  In the arithmetic of the code, whichever it is: for every raw
    total [r] the worst-case fee is [max(kalshi_fee, polymarket_gas) +
    slippage_buffer], the fee-adjusted cost is [r + worst_case_fees()], the
    net margin is [1.00 - fee_adjusted_cost(r)], and [is_profitable(r)]
    holds exactly when the test [net_margin(r) >= MIN_NET_MARGIN] succeeds;
    so a net margin that compares strictly below the minimum is not
    profitable. *)
Theorem fee_engine_arithmetic {F : Type} `{PyFloatOrder F}
    (settings : Settings F) (r : F) :
  FeeEngine.worst_case_fees settings
    = fadd (py_max (KALSHI_FEE_PER_CONTRACT settings) (POLYMARKET_GAS_COST settings))
           (SLIPPAGE_BUFFER settings)
  /\ FeeEngine.fee_adjusted_cost settings r
     = fadd r (FeeEngine.worst_case_fees settings)
  /\ FeeEngine.net_margin settings r
     = fsub (of_int 1) (FeeEngine.fee_adjusted_cost settings r)
  /\ (FeeEngine.is_profitable settings r = true
      <-> fgeb (FeeEngine.net_margin settings r) (MIN_NET_MARGIN settings) = true)
  /\ (fltb (FeeEngine.net_margin settings r) (MIN_NET_MARGIN settings) = true
      -> FeeEngine.is_profitable settings r = false).
Proof.
  split; [reflexivity|]. split; [reflexivity|]. split; [reflexivity|].
  split; [reflexivity|].
  intros Hlt. unfold FeeEngine.is_profitable, fgeb. apply flt_not_ge, Hlt.
Qed.

(** In binary64 with the default fees a raw total of 1.0 costs 1.035 after
    fees; its net margin compares below the minimum 0.02, so it is not
    profitable. *)
Lemma fee_engine_arithmetic_witness :
  FeeEngine.is_profitable default_settings_binary64 1%float = false.
Proof.
  apply (proj2 (proj2 (proj2 (proj2
           (fee_engine_arithmetic default_settings_binary64 1%float))))).
  vm_compute. reflexivity.
Defined.

(** The same read in exact arithmetic, where [max], [+], [-] and [>=] are
    those of the rationals. *)
Lemma fee_engine_exact (settings : Settings Q) (r : Q) :
  FeeEngine.worst_case_fees settings
    = (Qmax (KALSHI_FEE_PER_CONTRACT settings) (POLYMARKET_GAS_COST settings)
       + SLIPPAGE_BUFFER settings)%Q
  /\ FeeEngine.fee_adjusted_cost settings r
     = (r + FeeEngine.worst_case_fees settings)%Q
  /\ FeeEngine.net_margin settings r
     = (1 - FeeEngine.fee_adjusted_cost settings r)%Q
  /\ (FeeEngine.is_profitable settings r = true
      <-> (MIN_NET_MARGIN settings <= FeeEngine.net_margin settings r)%Q)
  /\ ((FeeEngine.net_margin settings r < MIN_NET_MARGIN settings)%Q
      -> FeeEngine.is_profitable settings r = false).
Proof.
  repeat split.
  - unfold FeeEngine.worst_case_fees, FeeEngine.kalshi_fee,
      FeeEngine.polymarket_fee. cbn [negb].
    rewrite py_max_Q. reflexivity.
  - unfold FeeEngine.is_profitable, fgeb. apply fleb_Q_true.
  - unfold FeeEngine.is_profitable, fgeb. apply fleb_Q_true.
  - unfold FeeEngine.is_profitable, fgeb. apply fleb_Q_false.
Qed.

(** The exact-dollar boundary with the default fees: a raw total of 1.00
    costs 1.035 after fees, a net margin of -0.035, and is no arbitrage; a
    raw total whose fee-adjusted cost is exactly 1.00 has net margin 0 and is
    no arbitrage either. *)
Example exact_dollar_is_not_arbitrage :
  (FeeEngine.fee_adjusted_cost default_settings (1 # 1) == 1035 # 1000)%Q
  /\ (FeeEngine.net_margin default_settings (1 # 1) == - (35 # 1000))%Q
  /\ FeeEngine.is_profitable default_settings (1 # 1) = false
  /\ (FeeEngine.fee_adjusted_cost default_settings (965 # 1000) == 1 # 1)%Q
  /\ FeeEngine.is_profitable default_settings (965 # 1000) = false.
Proof. repeat split; vm_compute; reflexivity. Qed.

(** The verdict is taken on the computed net margin, and rounding can move
    it across the minimum: legs of 0.625 and 32/100 with the default fees
    leave exactly 0.02 in exact arithmetic (profitable), while binary64
    computes a net margin just below 0.02 (not profitable). *)
Example rounding_moves_the_verdict :
  FeeEngine.is_profitable default_settings ((625 # 1000) + (32 # 100))%Q = true
  /\ FeeEngine.is_profitable default_settings_binary64
       (fadd 0.625%float (fdiv (of_int 32) (of_int 100))) = false
  /\ fltb (FeeEngine.net_margin default_settings_binary64
             (fadd 0.625%float (fdiv (of_int 32) (of_int 100))))
          (MIN_NET_MARGIN default_settings_binary64) = true.
Proof. repeat split; vm_compute; reflexivity. Qed.

(** ** C2: the kill-switch token check is fail-closed *)

(** C2.  When the settings in force carry no kill-switch token (the
    attribute is missing or is the empty string), [validate_token] returns
    [False] for every supplied token, so its result does not depend on the
    input. *)
Theorem validate_token_fail_closed {F : Type} (get_settings : Settings F)
    (settings : option (Settings F)) (provided provided' : string) :
  (let s := match settings with Some s => s | None => get_settings end in
   KILL_SWITCH_TOKEN s = None \/ KILL_SWITCH_TOKEN s = Some EmptyString) ->
  KillSwitch.validate_token get_settings provided settings = Ok false
  /\ KillSwitch.validate_token get_settings provided settings
     = KillSwitch.validate_token get_settings provided' settings.
Proof.
  intros Hcfg. unfold KillSwitch.validate_token.
  destruct Hcfg as [E | E]; cbv zeta in E; rewrite E; cbn; split; reflexivity.
Qed.

Lemma validate_token_fail_closed_witness :
  KillSwitch.validate_token default_settings "any-token" None = Ok false
  /\ KillSwitch.validate_token default_settings "any-token" None
     = KillSwitch.validate_token default_settings "" None.
Proof.
  apply (validate_token_fail_closed default_settings None "any-token" "").
  right. reflexivity.
Defined.

(** ** C7: the risk gates *)

Lemma prefix_append (s t : string) : String.prefix s (s ++ t) = true.
Proof.
  induction s as [|a s IH]; [destruct t; reflexivity|].
  cbn. destruct (ascii_dec a a) as [_|Hne]; [exact IH | congruence].
Qed.

Section RiskGates.
Context {F : Type} `{PyFloat F} `{PyFormat F}.
Variable settings : Settings F.
Variable st : RiskManager.State F.
Variables net_margin trade_cost_usd current_exposure now : F.

(** C7.  [check_trade_allowed] tries the gates in the order halt, margin,
    single trade, exposure, daily loss, hourly rate: when some gate
    rejects, the answer is [(False, reason)] where [reason] opens with the
    words of the first rejecting gate; when none rejects, the answer is
    [(True, "approved")]. *)
Theorem check_trade_allowed_gate_order :
  match first_failing_gate settings st net_margin trade_cost_usd
          current_exposure now with
  | Some g =>
      exists reason,
        fst (RiskManager.check_trade_allowed settings st net_margin
               trade_cost_usd current_exposure now) = (false, reason)
        /\ String.prefix (gate_label g) reason = true
  | None =>
      fst (RiskManager.check_trade_allowed settings st net_margin
             trade_cost_usd current_exposure now) = (true, "approved"%string)
  end.
Proof.
  unfold first_failing_gate, gate_order, RiskManager.check_trade_allowed.
  cbn [find gate_fails].
  destruct (RiskManager._is_halted st).
  { eexists; split; [reflexivity | apply prefix_append]. }
  destruct (fltb net_margin (MIN_NET_MARGIN settings)).
  { eexists; split; [reflexivity | apply prefix_append]. }
  destruct (fgtb trade_cost_usd (MAX_SINGLE_TRADE_USD settings)).
  { eexists; split; [reflexivity | apply prefix_append]. }
  cbv zeta.
  destruct (fgtb (fadd current_exposure trade_cost_usd)
                 (MAX_TOTAL_EXPOSURE_USD settings)).
  { eexists; split; [reflexivity | apply prefix_append]. }
  destruct (fleb (RiskManager._daily_pnl st)
                 (fneg (MAX_DAILY_LOSS_USD settings))).
  { eexists; split; [reflexivity | apply prefix_append]. }
  unfold RiskManager._clean_old_timestamps, RiskManager.set_trade_timestamps.
  cbn [RiskManager._trade_timestamps].
  destruct (Z.of_nat _ >=? MAX_TRADES_PER_HOUR settings).
  { eexists; split; [reflexivity | apply prefix_append]. }
  reflexivity.
Qed.
End RiskGates.

(** A candidate that breaks both the margin gate and the exposure gate is
    rejected for its margin, the earlier of the two; a sound candidate is
    approved. *)
Example risk_gates_run :
  fst (RiskManager.check_trade_allowed default_settings RiskManager.init
         (1 # 100) (10 # 1) (495 # 1) (0 # 1))
  = (false, "Net margin $0.0100 < min $0.0200"%string)
  /\ fst (RiskManager.check_trade_allowed default_settings RiskManager.init
            (5 # 100) (10 # 1) (495 # 1) (0 # 1))
     = (false, "Exposure $495.00 + $10.00 = $505.00 > max $500.00"%string)
  /\ fst (RiskManager.check_trade_allowed default_settings RiskManager.init
            (5 # 100) (10 # 1) (100 # 1) (0 # 1))
     = (true, "approved"%string).
Proof. repeat split; vm_compute; reflexivity. Qed.

(** ** C6: the half-open probe *)

Section BreakerProbe.
Context {F : Type} `{PyFloat F} `{PyFormat F}.
Variable cfg : CircuitBreaker.Config F.

(** C6.  Reading [state] while the breaker is [OPEN] and the test
    [now - last_state_change >= cooldown_sec] succeeds gives [HALF_OPEN] and
    leaves the breaker there; from [HALF_OPEN] one [record_success] closes
    the breaker and one [record_failure] opens it again, whatever the
    failure count and [max_consecutive_failures] are. *)
Theorem half_open_probe (st : CircuitBreaker.State F) (reason : string) (now : F) :
  (CircuitBreaker._state st = CircuitBreaker.OPEN ->
   fgeb (fsub now (CircuitBreaker._last_state_change st))
        (of_int (CircuitBreaker.cooldown_sec cfg)) = true ->
   fst (CircuitBreaker.state cfg st now) = CircuitBreaker.HALF_OPEN
   /\ CircuitBreaker._state (snd (CircuitBreaker.state cfg st now))
      = CircuitBreaker.HALF_OPEN)
  /\ (CircuitBreaker._state st = CircuitBreaker.HALF_OPEN ->
      CircuitBreaker._state (CircuitBreaker.record_success cfg st now)
      = CircuitBreaker.CLOSED)
  /\ (CircuitBreaker._state st = CircuitBreaker.HALF_OPEN ->
      CircuitBreaker._state (CircuitBreaker.record_failure cfg st reason now)
      = CircuitBreaker.OPEN).
Proof.
  split; [|split].
  - intros Hopen Hcool. unfold CircuitBreaker.state.
    rewrite Hopen. cbn [CircuitBreaker.CircuitState_eqb].
    rewrite Hcool. split; reflexivity.
  - intros Hhalf. unfold CircuitBreaker.record_success.
    cbn. rewrite Hhalf. reflexivity.
  - intros Hhalf. unfold CircuitBreaker.record_failure.
    cbn. rewrite Hhalf. reflexivity.
Qed.
End BreakerProbe.

(** The recovery scenario with the default thresholds: three failures open
    the breaker, a read 300 s later finds it half-open, and one success
    closes it, while one failure would have opened it again. *)
Lemma half_open_probe_witness :
  let tripped :=
    CircuitBreaker.record_failures CircuitBreaker.default_config
      (CircuitBreaker.init (0 # 1)) "timeout" [1 # 1; 2 # 1; 3 # 1] in
  (fst (CircuitBreaker.state CircuitBreaker.default_config tripped (303 # 1))
   = CircuitBreaker.HALF_OPEN)
  /\ (let probing :=
        snd (CircuitBreaker.state CircuitBreaker.default_config tripped (303 # 1)) in
      CircuitBreaker._state
        (CircuitBreaker.record_success CircuitBreaker.default_config probing (304 # 1))
      = CircuitBreaker.CLOSED
      /\ CircuitBreaker._state
           (CircuitBreaker.record_failure CircuitBreaker.default_config probing
              "timeout" (304 # 1))
         = CircuitBreaker.OPEN).
Proof.
  cbv zeta.
  pose proof (half_open_probe CircuitBreaker.default_config
    (CircuitBreaker.record_failures CircuitBreaker.default_config
       (CircuitBreaker.init (0 # 1)) "timeout" [1 # 1; 2 # 1; 3 # 1])
    "timeout" (303 # 1)) as [Hread _].
  pose proof (half_open_probe CircuitBreaker.default_config
    (snd (CircuitBreaker.state CircuitBreaker.default_config
       (CircuitBreaker.record_failures CircuitBreaker.default_config
          (CircuitBreaker.init (0 # 1)) "timeout" [1 # 1; 2 # 1; 3 # 1])
       (303 # 1)))
    "timeout" (304 # 1)) as [_ [Hsucc Hfail]].
  split; [apply Hread; vm_compute; reflexivity|].
  split; [apply Hsucc | apply Hfail]; vm_compute; reflexivity.
Defined.

(** ** C5: consecutive failures *)

Section BreakerFailures.
Context {F : Type} `{PyFloat F} `{PyFormat F}.
Variable cfg : CircuitBreaker.Config F.

Lemma drop_old_length (calls : list (F * bool)) (cutoff : F) :
  (List.length (CircuitBreaker.drop_old calls cutoff) <= List.length calls)%nat.
Proof.
  induction calls as [|c rest IH]; cbn; [lia|].
  destruct (fltb (fst c) cutoff); cbn; lia.
Qed.

Lemma get_error_rate_state (st : CircuitBreaker.State F) (now : F) :
  snd (CircuitBreaker._get_error_rate cfg st now)
  = CircuitBreaker._clean_old_calls cfg st now.
Proof.
  unfold CircuitBreaker._get_error_rate. cbv zeta.
  destruct (CircuitBreaker._api_calls (CircuitBreaker._clean_old_calls cfg st now));
    reflexivity.
Qed.

(** [record_failure], with the bookkeeping folded into [counted]. *)
Lemma record_failure_unfold (st : CircuitBreaker.State F) (reason : string) (now : F) :
  CircuitBreaker.record_failure cfg st reason now
  = if CircuitBreaker.CircuitState_eqb (CircuitBreaker._state st)
         CircuitBreaker.HALF_OPEN
    then CircuitBreaker.trip (counted cfg st now)
           ("half_open test failed: " ++ reason) now
    else if CircuitBreaker._consecutive_failures st + 1
            >=? CircuitBreaker.max_consecutive_failures cfg
    then CircuitBreaker.trip (counted cfg st now)
           (str_of_int (CircuitBreaker._consecutive_failures st + 1)
            ++ " consecutive failures: " ++ reason) now
    else
      let '(error_rate, st2) :=
        CircuitBreaker._get_error_rate cfg (counted cfg st now) now in
      if fgtb error_rate (CircuitBreaker.error_rate_threshold cfg)
         && (Z.of_nat (List.length (CircuitBreaker._api_calls st2)) >=? 5)
      then CircuitBreaker.trip st2
             ("error rate " ++ format_pct 0 error_rate ++ " > "
              ++ format_pct 0 (CircuitBreaker.error_rate_threshold cfg)) now
      else st2.
Proof. reflexivity. Qed.

(** [record_failure] either trips, or only cleans the window once more. *)
Lemma record_failure_cases (st : CircuitBreaker.State F) (reason : string) (now : F) :
  let st' := CircuitBreaker.record_failure cfg st reason now in
  (CircuitBreaker._state st' = CircuitBreaker.OPEN)
  \/ (st' = CircuitBreaker._clean_old_calls cfg (counted cfg st now) now
      /\ CircuitBreaker._state st <> CircuitBreaker.HALF_OPEN
      /\ CircuitBreaker._consecutive_failures st + 1
         < CircuitBreaker.max_consecutive_failures cfg).
Proof.
  cbv zeta. rewrite record_failure_unfold.
  destruct (CircuitBreaker.CircuitState_eqb (CircuitBreaker._state st)
              CircuitBreaker.HALF_OPEN) eqn:Ehalf; [left; reflexivity|].
  destruct (CircuitBreaker._consecutive_failures st + 1
            >=? CircuitBreaker.max_consecutive_failures cfg) eqn:Emax;
    [left; reflexivity|].
  pose proof (get_error_rate_state (counted cfg st now) now) as Hsnd.
  destruct (CircuitBreaker._get_error_rate cfg (counted cfg st now) now)
    as [error_rate st2].
  cbn [snd] in Hsnd. subst st2.
  match goal with
  | |- context [if ?b then _ else _] => destruct b
  end; [left; reflexivity|].
  right. repeat split; [|lia].
  intros Hh. rewrite Hh in Ehalf. discriminate.
Qed.

(** One [record_failure] on a closed breaker: either it opens, or it stays
    closed with one more consecutive failure, which is then still below the
    maximum. *)
Lemma record_failure_closed (st : CircuitBreaker.State F) (reason : string) (now : F) :
  CircuitBreaker._state st = CircuitBreaker.CLOSED ->
  let st' := CircuitBreaker.record_failure cfg st reason now in
  CircuitBreaker._state st' = CircuitBreaker.OPEN
  \/ (CircuitBreaker._state st' = CircuitBreaker.CLOSED
      /\ CircuitBreaker._consecutive_failures st'
         = CircuitBreaker._consecutive_failures st + 1
      /\ CircuitBreaker._consecutive_failures st + 1
         < CircuitBreaker.max_consecutive_failures cfg).
Proof.
  intros Hclosed.
  destruct (record_failure_cases st reason now) as [Hopen | (Heq & _ & Hlt)];
    [left; exact Hopen|].
  right. cbv zeta. rewrite Heq. repeat split; [exact Hclosed | exact Hlt].
Qed.

(** [record_failure] never leaves [OPEN]. *)
Lemma record_failure_open (st : CircuitBreaker.State F) (reason : string) (now : F) :
  CircuitBreaker._state st = CircuitBreaker.OPEN ->
  CircuitBreaker._state (CircuitBreaker.record_failure cfg st reason now)
  = CircuitBreaker.OPEN.
Proof.
  intros Hopen.
  destruct (record_failure_cases st reason now) as [H' | (Heq & _ & _)];
    [exact H'|].
  rewrite Heq. exact Hopen.
Qed.

Lemma record_failures_open (st : CircuitBreaker.State F) (reason : string)
    (times : list F) :
  CircuitBreaker._state st = CircuitBreaker.OPEN ->
  CircuitBreaker._state (CircuitBreaker.record_failures cfg st reason times)
  = CircuitBreaker.OPEN.
Proof.
  revert st. induction times as [|now rest IH]; intros st Hopen; cbn.
  - exact Hopen.
  - apply IH, record_failure_open, Hopen.
Qed.

(** After a run of failures on a closed breaker: open, or closed with every
    failure counted and the count below the maximum. *)
Lemma record_failures_closed (times : list F) (st : CircuitBreaker.State F)
    (reason : string) :
  CircuitBreaker._state st = CircuitBreaker.CLOSED ->
  CircuitBreaker._consecutive_failures st
  < CircuitBreaker.max_consecutive_failures cfg ->
  let st' := CircuitBreaker.record_failures cfg st reason times in
  CircuitBreaker._state st' = CircuitBreaker.OPEN
  \/ (CircuitBreaker._state st' = CircuitBreaker.CLOSED
      /\ CircuitBreaker._consecutive_failures st'
         = CircuitBreaker._consecutive_failures st + Z.of_nat (List.length times)
      /\ CircuitBreaker._consecutive_failures st'
         < CircuitBreaker.max_consecutive_failures cfg).
Proof.
  revert st. induction times as [|now rest IH]; intros st Hclosed Hlt; cbn zeta.
  - right. cbn. repeat split; [exact Hclosed | lia | exact Hlt].
  - cbn [CircuitBreaker.record_failures].
    destruct (record_failure_closed st reason now Hclosed) as [Hopen | (Hc & Hn & Hm)].
    + left. apply record_failures_open, Hopen.
    + destruct (IH _ Hc ltac:(lia)) as [Hopen | (Hc' & Hn' & Hm')].
      * left. exact Hopen.
      * right. repeat split; [exact Hc' | | exact Hm'].
        rewrite Hn', Hn. cbn [List.length]. lia.
Qed.

(** While fewer than five outcomes can be in the window and the count stays
    below the maximum, a failure leaves the breaker closed. *)
Lemma record_failure_stays_closed (st : CircuitBreaker.State F) (reason : string)
    (now : F) :
  CircuitBreaker._state st = CircuitBreaker.CLOSED ->
  CircuitBreaker._consecutive_failures st + 1
  < CircuitBreaker.max_consecutive_failures cfg ->
  Z.of_nat (List.length (CircuitBreaker._api_calls st)) + 1 < 5 ->
  let st' := CircuitBreaker.record_failure cfg st reason now in
  CircuitBreaker._state st' = CircuitBreaker.CLOSED
  /\ CircuitBreaker._consecutive_failures st'
     = CircuitBreaker._consecutive_failures st + 1
  /\ (List.length (CircuitBreaker._api_calls st')
      <= List.length (CircuitBreaker._api_calls st) + 1)%nat.
Proof.
  intros Hclosed Hlt Hwin.
  set (cutoff := fsub now (of_int (CircuitBreaker.error_rate_window_sec cfg))).
  pose proof (drop_old_length (CircuitBreaker._api_calls st ++ [(now, false)]) cutoff) as L1.
  pose proof (drop_old_length
    (CircuitBreaker.drop_old (CircuitBreaker._api_calls st ++ [(now, false)]) cutoff)
    cutoff) as L2.
  rewrite length_app in L1. cbn [List.length] in L1.
  cbv zeta. rewrite record_failure_unfold.
  rewrite Hclosed. cbn [CircuitBreaker.CircuitState_eqb].
  destruct (_ >=? _) eqn:Emax; [lia|].
  pose proof (get_error_rate_state (counted cfg st now) now) as Hsnd.
  destruct (CircuitBreaker._get_error_rate cfg (counted cfg st now) now)
    as [error_rate st2].
  cbn [snd] in Hsnd. subst st2.
  change (CircuitBreaker._api_calls
            (CircuitBreaker._clean_old_calls cfg (counted cfg st now) now))
    with (CircuitBreaker.drop_old
            (CircuitBreaker.drop_old
               (CircuitBreaker._api_calls st ++ [(now, false)]) cutoff) cutoff).
  match goal with
  | |- context [(?n >=? 5)] =>
      assert (Elen : (n >=? 5) = false) by lia; rewrite Elen, andb_false_r
  end.
  repeat split; [exact Hclosed | ].
  change (CircuitBreaker._api_calls
            (CircuitBreaker._clean_old_calls cfg (counted cfg st now) now))
    with (CircuitBreaker.drop_old
            (CircuitBreaker.drop_old
               (CircuitBreaker._api_calls st ++ [(now, false)]) cutoff) cutoff).
  lia.
Qed.

Lemma record_failures_stay_closed (times : list F) (st : CircuitBreaker.State F)
    (reason : string) :
  CircuitBreaker._state st = CircuitBreaker.CLOSED ->
  CircuitBreaker._consecutive_failures st + Z.of_nat (List.length times)
  < CircuitBreaker.max_consecutive_failures cfg ->
  Z.of_nat (List.length (CircuitBreaker._api_calls st))
  + Z.of_nat (List.length times) < 5 ->
  CircuitBreaker._state (CircuitBreaker.record_failures cfg st reason times)
  = CircuitBreaker.CLOSED.
Proof.
  revert st. induction times as [|now rest IH]; intros st Hclosed Hlt Hwin.
  - exact Hclosed.
  - cbn [CircuitBreaker.record_failures]. cbn [List.length] in Hlt, Hwin.
    destruct (record_failure_stays_closed st reason now Hclosed
                ltac:(lia) ltac:(lia)) as (Hc & Hn & Hl).
    apply IH; [exact Hc | rewrite Hn; lia | lia].
Qed.

(** C5, as the code has it.  Start from a closed breaker with no consecutive
    failure and [max_consecutive_failures >= 1], and record [N] failures with
    nothing in between.  If [N >= max_consecutive_failures] the breaker is
    open.  If moreover the sliding window held at most
    [5 - max_consecutive_failures] outcomes at the start (a fresh breaker
    with the default maximum 3, for one), the breaker is open exactly when
    [N >= max_consecutive_failures]: the error-rate trigger, which needs five
    outcomes in the window, cannot fire earlier. *)
Theorem consecutive_failures_open (st : CircuitBreaker.State F) (reason : string)
    (times : list F) :
  CircuitBreaker._state st = CircuitBreaker.CLOSED ->
  CircuitBreaker._consecutive_failures st = 0 ->
  1 <= CircuitBreaker.max_consecutive_failures cfg ->
  let N := Z.of_nat (List.length times) in
  let st' := CircuitBreaker.record_failures cfg st reason times in
  (CircuitBreaker.max_consecutive_failures cfg <= N ->
   CircuitBreaker._state st' = CircuitBreaker.OPEN)
  /\ (Z.of_nat (List.length (CircuitBreaker._api_calls st))
      + CircuitBreaker.max_consecutive_failures cfg <= 5 ->
      (CircuitBreaker._state st' = CircuitBreaker.OPEN
       <-> CircuitBreaker.max_consecutive_failures cfg <= N)).
Proof.
  intros Hclosed Hzero Hmax N st'.
  assert (Hfwd : CircuitBreaker.max_consecutive_failures cfg <= N ->
                 CircuitBreaker._state st' = CircuitBreaker.OPEN).
  { intros HN.
    destruct (record_failures_closed times st reason Hclosed ltac:(lia))
      as [Hopen | (_ & Hn & Hm)]; [exact Hopen|].
    fold st' in Hn, Hm. fold N in Hn. lia. }
  split; [exact Hfwd|].
  intros Hwin. split; [|exact Hfwd].
  intros Hopen.
  destruct (Z_lt_le_dec N (CircuitBreaker.max_consecutive_failures cfg))
    as [Hlt | Hle]; [|exact Hle].
  assert (Hc : CircuitBreaker._state st' = CircuitBreaker.CLOSED).
  { apply record_failures_stay_closed; [exact Hclosed | fold N; lia | fold N; lia]. }
  congruence.
Qed.
End BreakerFailures.

(** A fresh breaker with the default thresholds is open after three
    failures, and is open exactly from the third failure on. *)
Lemma consecutive_failures_open_witness :
  let st' :=
    CircuitBreaker.record_failures CircuitBreaker.default_config
      (CircuitBreaker.init (0 # 1)) "timeout" [1 # 1; 2 # 1; 3 # 1] in
  CircuitBreaker._state st' = CircuitBreaker.OPEN
  /\ (CircuitBreaker._state st' = CircuitBreaker.OPEN <-> 3 <= 3).
Proof.
  cbv zeta.
  pose proof (consecutive_failures_open CircuitBreaker.default_config
    (CircuitBreaker.init (0 # 1)) "timeout" [1 # 1; 2 # 1; 3 # 1]
    eq_refl eq_refl ltac:(cbn; lia)) as [Hfwd Hiff].
  split; [apply Hfwd; cbn; lia | apply Hiff; cbn; lia].
Defined.

(** The claim as stated fails: with the default thresholds, after two
    failures and a success the breaker is closed with no consecutive failure
    and three outcomes in its window; two more failures make the window
    hold five outcomes, four of them failures, and the error-rate trigger
    opens the breaker although only 2 < 3 failures were consecutive.  A
    fresh breaker with [max_consecutive_failures = 6] is likewise open after
    five failures. *)
Lemma consecutive_failures_counterexample :
  let cfg := CircuitBreaker.default_config in
  let st :=
    CircuitBreaker.record_success cfg
      (CircuitBreaker.record_failure cfg
         (CircuitBreaker.record_failure cfg (CircuitBreaker.init (0 # 1))
            "timeout" (1 # 1))
         "timeout" (2 # 1))
      (3 # 1) in
  let cfg6 : CircuitBreaker.Config Q :=
    {| CircuitBreaker.max_consecutive_failures := 6;
       CircuitBreaker.error_rate_threshold := 50 # 100;
       CircuitBreaker.error_rate_window_sec := 300;
       CircuitBreaker.cooldown_sec := 300;
       CircuitBreaker.staleness_threshold_sec := 30 # 1 |} in
  (CircuitBreaker._state st = CircuitBreaker.CLOSED
   /\ CircuitBreaker._consecutive_failures st = 0
   /\ CircuitBreaker._state
        (CircuitBreaker.record_failures cfg st "timeout" [4 # 1; 5 # 1])
      = CircuitBreaker.OPEN
   /\ Z.of_nat (List.length [4 # 1; 5 # 1])
      < CircuitBreaker.max_consecutive_failures cfg)
  /\ (CircuitBreaker._state
        (CircuitBreaker.record_failures cfg6 (CircuitBreaker.init (0 # 1))
           "timeout" [1 # 1; 2 # 1; 3 # 1; 4 # 1; 5 # 1])
      = CircuitBreaker.OPEN
      /\ Z.of_nat (List.length [1 # 1; 2 # 1; 3 # 1; 4 # 1; 5 # 1])
         < CircuitBreaker.max_consecutive_failures cfg6).
Proof.
  cbv zeta. repeat split; vm_compute; reflexivity.
Qed.

(** ** C8: kill-switch round trip *)

(** C8, as the code has it.  Activating and then deactivating, with the
    removal of the sentinel file succeeding, leaves [is_active] false and the
    file absent, whatever the state and the file were before and whether or
    not the activation managed to write the file.  Activating twice leaves
    the switch active, and [activated_at] is the time of the second
    activation. *)
Theorem kill_switch_round_trip {datetime : Type} (isoformat : datetime -> string)
    (st : KillSwitch.State datetime) (file : KillSwitch.KillFile)
    (reason1 reason2 : string) (t1 t2 t3 : datetime)
    (write1 write2 : KillSwitch.io_outcome) :
  (let '(s1, f1) := KillSwitch.activate isoformat st file reason1 t1 write1 in
   let '(s2, f2) := KillSwitch.deactivate s1 f1 reason2 KillSwitch.IoOk in
   fst (KillSwitch.is_active s2 f2 t3) = false /\ f2 = None)
  /\ (let '(s1, f1) := KillSwitch.activate isoformat st file reason1 t1 write1 in
      let '(s2, f2) := KillSwitch.activate isoformat s1 f1 reason2 t2 write2 in
      fst (KillSwitch.is_active s2 f2 t3) = true
      /\ KillSwitch._activated_at (snd (KillSwitch.is_active s2 f2 t3)) = Some t2).
Proof.
  split.
  - destruct write1, file as [text|]; cbn; split; reflexivity.
  - destruct write1, write2, file as [text|]; cbn; split; reflexivity.
Qed.

(** The claim as stated fails on its second half: after activations at
    times 1 and 2 the recorded [activated_at] is 2, not 1.  (And when the
    removal of the file fails with [OSError], which [deactivate] swallows,
    the file stays and [is_active] reads true again.) *)
Lemma kill_switch_counterexample :
  let iso := fun t : Z => str_of_int t in
  let s0 := KillSwitch.init None 0 in
  let '(s1, f1) := KillSwitch.activate iso s0 None "first" 1 KillSwitch.IoOk in
  let '(s2, f2) := KillSwitch.activate iso s1 f1 "second" 2 KillSwitch.IoOk in
  let '(s3, f3) := KillSwitch.deactivate s2 f2 "clear" KillSwitch.IoOSError in
  (KillSwitch._activated_at s1 = Some 1
   /\ KillSwitch._activated_at s2 = Some 2
   /\ KillSwitch._activated_at (snd (KillSwitch.is_active s2 f2 3)) = Some 2
   /\ 2 <> 1)
  /\ (fst (KillSwitch.is_active s3 f3 3) = true /\ KillSwitch.exists_ f3 = true).
Proof.
  cbn. repeat split; try reflexivity. discriminate.
Qed.

(** ** C1: unwinding leg 1 when leg 2 fails *)

Section Unwind.
Context {F : Type} `{PyFloat F} `{PyFormat F}.
Variable settings : Settings F.
Variable kalshi_place_order :
  string -> string -> string -> Z -> Z -> string -> OrderEngine.venue_reply.
Variable poly_place_order :
  string -> string -> F -> F -> string -> OrderEngine.venue_reply.
Variable kalshi_cancel_order : pyval -> OrderEngine.venue_reply.

(** C1, as the code has it.  Take a run of [execute_arbitrage] that passes
    the pre-flight checks with dry-run off, in which leg 1 reports no error
    and leg 2 reports one.  If the leg-1 result is [None] or an empty dict,
    nothing is cancelled and the status is [UNWOUND].  Otherwise the order
    id is read from the leg-1 result: when there is one, exactly one cancel
    request for that id follows the two orders, and the status is [UNWOUND]
    if the cancel reports no error and [LEG2_FAILED] if it does; when there
    is none, nothing is cancelled and the status is [LEG2_FAILED]. *)
Theorem unwind_policy (st : OrderEngine.State F) (opp : Arbitrage.ArbitrageCheck F)
    (leg1_result leg2_result : option pydict) (leg1_err leg2_err : option string) :
  fst (OrderEngine._preflight_check settings st opp) = true ->
  DRY_RUN settings = false ->
  fst (OrderEngine._execute_kalshi_leg kalshi_place_order st opp)
  = (leg1_result, leg1_err) ->
  opt_str_truthy leg1_err = false ->
  fst (OrderEngine._execute_poly_leg poly_place_order st opp)
  = (leg2_result, leg2_err) ->
  opt_str_truthy leg2_err = true ->
  let run :=
    OrderEngine.execute_arbitrage settings kalshi_place_order poly_place_order
      kalshi_cancel_order st opp in
  let placed :=
    OrderEngine.sent
      (snd (OrderEngine._execute_poly_leg poly_place_order
              (snd (OrderEngine._execute_kalshi_leg kalshi_place_order st opp))
              opp)) in
  match leg1_result with
  | None | Some [] =>
      OrderEngine.status (fst run) = ExecutionStatus.UNWOUND
      /\ OrderEngine.sent (snd run) = placed
  | Some ((_ :: _) as d) =>
      let order_id := OrderEngine.leg1_order_id d in
      if truthy order_id then
        OrderEngine.sent (snd run)
        = placed ++ [OrderEngine.KalshiCancelOrder order_id]
        /\ OrderEngine.status (fst run)
           = (if opt_str_truthy (snd (kalshi_cancel_order order_id))
              then ExecutionStatus.LEG2_FAILED
              else ExecutionStatus.UNWOUND)
      else
        OrderEngine.sent (snd run) = placed
        /\ OrderEngine.status (fst run) = ExecutionStatus.LEG2_FAILED
  end.
Proof.
  intros Hpre Hdry Hleg1 Herr1 Hleg2 Herr2 run placed.
  subst run placed. unfold OrderEngine.execute_arbitrage.
  destruct (OrderEngine._preflight_check settings st opp) as [ok perr].
  cbn [fst] in Hpre. subst ok. cbn [negb]. rewrite Hdry.
  unfold OrderEngine._execute_kalshi_leg, OrderEngine._execute_poly_leg in *.
  cbn [fst snd] in *. rewrite Hleg1, Herr1, Hleg2, Herr2.
  destruct leg1_result as [[|kv d]|].
  - cbn. split; reflexivity.
  - unfold OrderEngine._attempt_unwind_kalshi. cbv zeta.
    destruct (truthy (OrderEngine.leg1_order_id (kv :: d))); cbn [negb].
    + destruct (kalshi_cancel_order (OrderEngine.leg1_order_id (kv :: d)))
        as [resp err]. cbn [snd].
      destruct (opt_str_truthy err); cbn; split; reflexivity.
    + cbn. split; reflexivity.
  - cbn. split; reflexivity.
Qed.
End Unwind.

(** The dual-leg unwind scenario: leg 1 answers with order [ord-123], leg 2
    fails with "Gas too high", the cancel goes through: the cancel request
    for [ord-123] is the third and last request and the status is
    [UNWOUND]. *)
Lemma unwind_policy_witness :
  let kalshi := fun (_ _ _ : string) (_ _ : Z) (_ : string) =>
    (Some [("order"%string,
            PDict [("order_id"%string, PStr "ord-123");
                   ("status"%string, PStr "filled")])],
     @None string) in
  let poly := fun (_ _ : string) (_ _ : Q) (_ : string) =>
    (@None pydict, Some "Gas too high"%string) in
  let cancel := fun _ : pyval =>
    (Some [("status"%string, PStr "cancelled")], @None string) in
  let run :=
    OrderEngine.execute_arbitrage live_settings kalshi poly cancel
      OrderEngine.init clean_opportunity in
  OrderEngine.sent (snd run)
  = [OrderEngine.KalshiPlaceOrder "KXBTCD-STRIKE-95500" "yes" "buy" 1 55 "limit";
     OrderEngine.PolyPlaceOrder "placeholder_token_id" "BUY" (35 # 100)
       (inject_Z 1) "FOK";
     OrderEngine.KalshiCancelOrder (PStr "ord-123")]
  /\ OrderEngine.status (fst run) = ExecutionStatus.UNWOUND.
Proof.
  cbv zeta.
  exact (unwind_policy live_settings
           (fun (_ _ _ : string) (_ _ : Z) (_ : string) =>
              (Some [("order"%string,
                      PDict [("order_id"%string, PStr "ord-123");
                             ("status"%string, PStr "filled")])],
               @None string))
           (fun (_ _ : string) (_ _ : Q) (_ : string) =>
              (@None pydict, Some "Gas too high"%string))
           (fun _ : pyval =>
              (Some [("status"%string, PStr "cancelled")], @None string))
           OrderEngine.init clean_opportunity _ _ _ _
           eq_refl eq_refl eq_refl eq_refl eq_refl eq_refl).
Defined.

(** The claim as stated fails when leg 1 answered with a non-empty result
    that carries no order id: no cancel is sent and the status is
    [LEG2_FAILED], not [UNWOUND]. *)
Lemma unwind_counterexample :
  let leg1 : pydict := [("status"%string, PStr "accepted")] in
  let kalshi := fun (_ _ _ : string) (_ _ : Z) (_ : string) =>
    (Some leg1, @None string) in
  let poly := fun (_ _ : string) (_ _ : Q) (_ : string) =>
    (@None pydict, Some "Gas too high"%string) in
  let cancel := fun _ : pyval =>
    (Some [("status"%string, PStr "cancelled")], @None string) in
  let run :=
    OrderEngine.execute_arbitrage live_settings kalshi poly cancel
      OrderEngine.init clean_opportunity in
  OrderEngine.leg1_order_id leg1 = PNone
  /\ OrderEngine.status (fst run) = ExecutionStatus.LEG2_FAILED
  /\ OrderEngine.error (fst run)
     = Some "Poly leg failed: Gas too high. Unwind: FAILED"%string
  /\ List.length (OrderEngine.sent (snd run)) = 2%nat.
Proof.
  cbv zeta. repeat split; vm_compute; reflexivity.
Qed.

(** ** C3 and C9: the arbitrage detector *)

Section Detector.
Context {F : Type} `{PyFloat F}.
Variable settings : Settings F.

Lemma record_checks_spec (checks all_checks opportunities : list (Arbitrage.ArbitrageCheck F)) :
  Arbitrage.record_checks checks all_checks opportunities
  = (all_checks ++ checks,
     opportunities ++ filter Arbitrage.is_arbitrage checks).
Proof.
  revert all_checks opportunities.
  induction checks as [|c rest IH]; intros all_checks opportunities; cbn.
  - rewrite !app_nil_r. reflexivity.
  - rewrite IH. rewrite <- app_assoc. cbn.
    destruct (Arbitrage.is_arbitrage c); [rewrite <- app_assoc|]; reflexivity.
Qed.

Lemma scan_selected_spec (selected : list (Arbitrage.KalshiMarket F))
    (poly_strike up down : F)
    (all_checks opportunities : list (Arbitrage.ArbitrageCheck F)) :
  Arbitrage.scan_selected settings selected poly_strike up down
    all_checks opportunities
  = (all_checks
     ++ flat_map (Arbitrage.strategy_checks settings poly_strike up down) selected,
     opportunities
     ++ filter Arbitrage.is_arbitrage
          (flat_map (Arbitrage.strategy_checks settings poly_strike up down)
             selected)).
Proof.
  revert all_checks opportunities.
  induction selected as [|km rest IH]; intros all_checks opportunities.
  - cbn. rewrite !app_nil_r. reflexivity.
  - cbn [Arbitrage.scan_selected flat_map]. rewrite record_checks_spec.
    rewrite IH. rewrite filter_app, <- !app_assoc. reflexivity.
Qed.

(** With a reference strike present, the checks returned are the strategy
    checks of the selected markets, in order, and the opportunities are
    those among them flagged as arbitrage. *)
Lemma find_opportunities_spec (poly_data : Arbitrage.PolymarketData F)
    (kalshi_data : Arbitrage.KalshiData F) (poly_strike : F) :
  Arbitrage.price_to_beat poly_data = Some poly_strike ->
  let checks :=
    flat_map (Arbitrage.strategy_checks settings poly_strike
                (Arbitrage.prices_get (Arbitrage.prices poly_data) "Up")
                (Arbitrage.prices_get (Arbitrage.prices poly_data) "Down"))
             (Arbitrage.selected_markets poly_strike kalshi_data) in
  Arbitrage.find_opportunities settings poly_data kalshi_data
  = (checks, filter Arbitrage.is_arbitrage checks).
Proof.
  intros Hstrike. unfold Arbitrage.find_opportunities. rewrite Hstrike.
  cbv zeta. rewrite scan_selected_spec. reflexivity.
Qed.


(** The three branches of the strategy choice, by the outcome of the two
    comparisons the code makes, for any float arithmetic. *)
Lemma strategy_checks_cases (poly_strike up down : F) (km : Arbitrage.KalshiMarket F) :
  let K := Arbitrage.strike km in
  let yes := fdiv (of_int (Arbitrage.yes_ask km)) (of_int 100) in
  let no := fdiv (of_int (Arbitrage.no_ask km)) (of_int 100) in
  let checks := Arbitrage.strategy_checks settings poly_strike up down km in
  (fgtb poly_strike K = true ->
   checks = [Arbitrage._build_check settings K yes no
               "Poly > Kalshi" "Down" "Yes" down yes])
  /\ (fgtb poly_strike K = false -> fltb poly_strike K = true ->
      checks = [Arbitrage._build_check settings K yes no
                  "Poly < Kalshi" "Up" "No" up no])
  /\ (fgtb poly_strike K = false -> fltb poly_strike K = false ->
      checks = [Arbitrage._build_check settings K yes no
                  "Equal" "Down" "Yes" down yes;
                Arbitrage._build_check settings K yes no
                  "Equal" "Up" "No" up no]).
Proof.
  cbv zeta. unfold Arbitrage.strategy_checks. cbv zeta.
  split; [|split].
  - intros ->. reflexivity.
  - intros -> ->. reflexivity.
  - intros -> ->. reflexivity.
Qed.

End Detector.

Lemma insert_by_length {A K : Type} (key : A -> K) (before : K -> K -> bool)
    (x : A) (l : list A) :
  List.length (insert_by key before x l) = S (List.length l).
Proof.
  induction l as [|y rest IH]; cbn; [reflexivity|].
  destruct (before (key x) (key y)); cbn; [reflexivity | rewrite IH; reflexivity].
Qed.

Lemma sorted_by_length {A K : Type} (key : A -> K) (before : K -> K -> bool)
    (l : list A) :
  List.length (sorted_by key before l) = List.length l.
Proof.
  unfold sorted_by.
  enough (G : forall acc,
             List.length (fold_left (fun acc x => insert_by key before x acc) l acc)
             = (List.length acc + List.length l)%nat) by (rewrite G; reflexivity).
  induction l as [|x rest IH]; intros acc; cbn; [lia|].
  rewrite IH, insert_by_length. lia.
Qed.

(** C3.  With reference strike [K*] present, the checks returned are the
    checks of the scanned markets in order, and for each market with strike
    [K]: if [K* > K] there is exactly one check, with Polymarket leg Down at
    the Down price and Kalshi leg Yes at [yes_ask / 100]; if [K* < K]
    exactly one check, with Polymarket leg Up at the Up price and Kalshi leg
    No at [no_ask / 100]; if [K* = K] exactly these two checks, in this
    order. *)
Theorem strategy_assignment (settings : Settings Q)
    (poly_data : Arbitrage.PolymarketData Q) (kalshi_data : Arbitrage.KalshiData Q)
    (Kstar : Q) :
  Arbitrage.price_to_beat poly_data = Some Kstar ->
  let up := Arbitrage.prices_get (Arbitrage.prices poly_data) "Up" in
  let down := Arbitrage.prices_get (Arbitrage.prices poly_data) "Down" in
  let checks_of := Arbitrage.strategy_checks settings Kstar up down in
  fst (Arbitrage.find_opportunities settings poly_data kalshi_data)
  = flat_map checks_of (Arbitrage.selected_markets Kstar kalshi_data)
  /\ forall km : Arbitrage.KalshiMarket Q,
       let K := Arbitrage.strike km in
       let yes := (inject_Z (Arbitrage.yes_ask km) / inject_Z 100)%Q in
       let no := (inject_Z (Arbitrage.no_ask km) / inject_Z 100)%Q in
       let is_down_yes c :=
         Arbitrage.poly_leg c = "Down"%string
         /\ Arbitrage.kalshi_leg c = "Yes"%string
         /\ Arbitrage.poly_cost c = down /\ Arbitrage.kalshi_cost c = yes in
       let is_up_no c :=
         Arbitrage.poly_leg c = "Up"%string
         /\ Arbitrage.kalshi_leg c = "No"%string
         /\ Arbitrage.poly_cost c = up /\ Arbitrage.kalshi_cost c = no in
       ((K < Kstar)%Q -> exists c, checks_of km = [c] /\ is_down_yes c)
       /\ ((Kstar < K)%Q -> exists c, checks_of km = [c] /\ is_up_no c)
       /\ ((Kstar == K)%Q ->
           exists c1 c2, checks_of km = [c1; c2] /\ is_down_yes c1 /\ is_up_no c2).
Proof.
  intros Hstrike up down checks_of. split.
  - rewrite (find_opportunities_spec settings poly_data kalshi_data Kstar Hstrike).
    reflexivity.
  - intros km K yes no is_down_yes is_up_no.
    subst checks_of is_down_yes is_up_no. unfold Arbitrage.strategy_checks.
    cbv zeta. fold K. unfold fgtb. split; [|split].
    + intros Hlt. rewrite (proj2 (fltb_Q_true K Kstar) Hlt).
      eexists. split; [reflexivity|]. cbn. repeat split; reflexivity.
    + intros Hgt.
      rewrite (proj2 (fltb_Q_false K Kstar) (Qlt_le_weak _ _ Hgt)).
      rewrite (proj2 (fltb_Q_true Kstar K) Hgt).
      eexists. split; [reflexivity|]. cbn. repeat split; reflexivity.
    + intros Heq.
      assert (E1 : fltb K Kstar = false)
        by (apply fltb_Q_false; rewrite Heq; apply Qle_refl).
      assert (E2 : fltb Kstar K = false)
        by (apply fltb_Q_false; rewrite Heq; apply Qle_refl).
      rewrite E1, E2.
      do 2 eexists. split; [reflexivity|]. cbn. repeat split; reflexivity.
Qed.

(** On the fixture data: eight checks in all; the 95500 market gets the one
    (Down, Yes) check, the 96500 market the one (Up, No) check, and the 96000
    market, level with the reference strike, both. *)
Lemma strategy_assignment_witness :
  let checks_of :=
    Arbitrage.strategy_checks default_settings (96000 # 1) (55 # 100) (45 # 100) in
  List.length
    (fst (Arbitrage.find_opportunities default_settings sample_poly_data
            sample_kalshi_data)) = 8%nat
  /\ (exists c, checks_of (market (95500 # 1) 65 68 30 32) = [c]
                /\ Arbitrage.poly_leg c = "Down"%string
                /\ Arbitrage.kalshi_leg c = "Yes"%string
                /\ Arbitrage.poly_cost c = 45 # 100
                /\ Arbitrage.kalshi_cost c = (inject_Z 68 / inject_Z 100)%Q)
  /\ (exists c, checks_of (market (96500 # 1) 35 38 60 62) = [c]
                /\ Arbitrage.poly_leg c = "Up"%string
                /\ Arbitrage.kalshi_leg c = "No"%string
                /\ Arbitrage.poly_cost c = 55 # 100
                /\ Arbitrage.kalshi_cost c = (inject_Z 62 / inject_Z 100)%Q)
  /\ (exists c1 c2, checks_of (market (96000 # 1) 50 53 45 47) = [c1; c2]
                    /\ Arbitrage.poly_leg c1 = "Down"%string
                    /\ Arbitrage.poly_leg c2 = "Up"%string).
Proof.
  cbv zeta.
  destruct (strategy_assignment default_settings sample_poly_data
              sample_kalshi_data (96000 # 1) eq_refl) as [Hall Hper].
  split; [rewrite Hall; vm_compute; reflexivity|].
  split; [|split].
  - destruct (Hper (market (95500 # 1) 65 68 30 32)) as [Hlt _].
    apply Hlt. vm_compute. reflexivity.
  - destruct (Hper (market (96500 # 1) 35 38 60 62)) as [_ [Hgt _]].
    apply Hgt. vm_compute. reflexivity.
  - destruct (Hper (market (96000 # 1) 50 53 45 47)) as [_ [_ Heq]].
    destruct Heq as (c1 & c2 & Hc & (Hd & _) & (Hu & _));
      [vm_compute; reflexivity|].
    exists c1, c2. auto.
Defined.

(** *** The neighbourhood *)







(** ** C10: walking the order book within a budget *)

Section DepthWalk.
Context {F : Type} `{PyFloat F}.

(** The walk never looks past the first level that breaks the limit. *)
Lemma walk_levels_within_limit (levels : list (OrderBook.OrderBookLevel F))
    (side : string) (max_price max_usd total_contracts total_cost : F) :
  OrderBook.walk_levels levels side max_price max_usd total_contracts total_cost
  = OrderBook.walk_levels (within_limit side max_price levels) side max_price
      max_usd total_contracts total_cost.
Proof.
  revert total_contracts total_cost.
  induction levels as [|level rest IH]; intros total_contracts total_cost;
    [reflexivity|].
  cbn [within_limit]. unfold limit_ok.
  destruct (String.eqb side "BUY" && fgtb (OrderBook.price level) max_price) eqn:Ebuy.
  - cbn [negb andb OrderBook.walk_levels]. rewrite Ebuy. reflexivity.
  - destruct (String.eqb side "SELL" && fltb (OrderBook.price level) max_price) eqn:Esell.
    + cbn [negb andb OrderBook.walk_levels]. rewrite Ebuy, Esell. reflexivity.
    + cbn [negb andb OrderBook.walk_levels]. rewrite Ebuy, Esell.
      destruct (fleb _ _); [reflexivity|].
      destruct (py_div _ _); [apply IH | reflexivity].
Qed.

Lemma within_limit_prefix (side : string) (max_price : F)
    (levels : list (OrderBook.OrderBookLevel F)) :
  exists rest, levels = within_limit side max_price levels ++ rest.
Proof.
  induction levels as [|level tl [rest IH]]; [exists []; reflexivity|].
  cbn [within_limit]. destruct (limit_ok side max_price level).
  - exists rest. cbn. rewrite <- IH. reflexivity.
  - exists (level :: tl). reflexivity.
Qed.

Lemma within_limit_ok (side : string) (max_price : F)
    (levels : list (OrderBook.OrderBookLevel F)) (level : OrderBook.OrderBookLevel F) :
  In level (within_limit side max_price levels) ->
  limit_ok side max_price level = true.
Proof.
  induction levels as [|l tl IH]; cbn [within_limit]; [intros []|].
  destruct (limit_ok side max_price l) eqn:El; [|intros []].
  intros [<- | Hin]; [exact El | exact (IH Hin)].
Qed.
(** For any float arithmetic: when no walked price compares equal to zero,
    the walk raises nothing. *)
Lemma walk_levels_no_exception (levels : list (OrderBook.OrderBookLevel F))
    (side : string) (max_price max_usd total_contracts total_cost : F) :
  (forall level, In level levels ->
     feqb (OrderBook.price level) (of_int 0) = false) ->
  exists result,
    OrderBook.walk_levels levels side max_price max_usd total_contracts total_cost
    = Ok result.
Proof.
  revert total_contracts total_cost.
  induction levels as [|level rest IH]; intros total_contracts total_cost Hnz.
  - eexists. reflexivity.
  - cbn [OrderBook.walk_levels].
    destruct (String.eqb side "BUY" && _); [eexists; reflexivity|].
    destruct (String.eqb side "SELL" && _); [eexists; reflexivity|].
    cbv zeta. destruct (fleb _ _); [eexists; reflexivity|].
    unfold py_div. rewrite (Hnz level (or_introl eq_refl)).
    apply IH. intros l Hl. apply Hnz. right. exact Hl.
Qed.
End DepthWalk.

(** In exact arithmetic a level that does not break the limit is priced at
    or below [max_price] on a BUY and at or above it on a SELL. *)
Lemma limit_ok_Q (side : string) (max_price : Q) (level : OrderBook.OrderBookLevel Q) :
  limit_ok side max_price level = true ->
  (side = "BUY"%string -> (OrderBook.price level <= max_price)%Q)
  /\ (side = "SELL"%string -> (max_price <= OrderBook.price level)%Q).
Proof.
  unfold limit_ok, fgtb. intros Hok. apply andb_true_iff in Hok.
  destruct Hok as [Hbuy Hsell]. apply negb_true_iff in Hbuy, Hsell. split.
  - intros ->. cbn in Hbuy. apply fltb_Q_false. exact Hbuy.
  - intros ->. cbn in Hsell. apply fltb_Q_false. exact Hsell.
Qed.

(** In exact arithmetic the walk never divides by zero and never spends
    more than the budget when the prices it meets are positive. *)
Lemma walk_levels_budget_Q (levels : list (OrderBook.OrderBookLevel Q)) (side : string)
    (max_price max_usd total_contracts total_cost : Q) :
  (forall level, In level levels -> (0 < OrderBook.price level)%Q) ->
  (total_cost <= max_usd)%Q ->
  exists contracts cost,
    OrderBook.walk_levels levels side max_price max_usd total_contracts total_cost
    = Ok (contracts, cost)
    /\ (cost <= max_usd)%Q.
Proof.
  revert total_contracts total_cost.
  induction levels as [|level rest IH]; intros total_contracts total_cost Hpos Hcost.
  - exists total_contracts, total_cost. split; [reflexivity | exact Hcost].
  - cbn [OrderBook.walk_levels].
    destruct (String.eqb side "BUY" && _);
      [exists total_contracts, total_cost; split; [reflexivity | exact Hcost]|].
    destruct (String.eqb side "SELL" && _);
      [exists total_contracts, total_cost; split; [reflexivity | exact Hcost]|].
    cbv zeta.
    destruct (fleb (fsub max_usd total_cost) (of_int 0));
      [exists total_contracts, total_cost; split; [reflexivity | exact Hcost]|].
    assert (Hp : (0 < OrderBook.price level)%Q) by (apply Hpos; left; reflexivity).
    assert (Hnz : ~ (OrderBook.price level == 0)%Q).
    { intros E. rewrite E in Hp. exact (Qlt_irrefl 0 Hp). }
    unfold py_div.
    assert (Ez : feqb (OrderBook.price level) (of_int 0) = false).
    { cbn. destruct (Qeq_bool (OrderBook.price level) (inject_Z 0)) eqn:E;
        [|reflexivity].
      apply Qeq_bool_eq in E. exfalso. apply Hnz. exact E. }
    rewrite Ez.
    apply IH; [intros l Hl; apply Hpos; right; exact Hl|].
    pose proof (py_min_Q_le (OrderBook.size level)
                  (fdiv (fsub max_usd total_cost) (OrderBook.price level)))
      as [_ Hfill].
    set (fill := py_min (OrderBook.size level)
                   (fdiv (fsub max_usd total_cost) (OrderBook.price level))) in *.
    cbn [fdiv fsub fadd fmul PyFloat_Q] in *.
    assert (Hmul : (fill * OrderBook.price level <= max_usd - total_cost)%Q).
    { assert (Hq : ((max_usd - total_cost) / OrderBook.price level
                    * OrderBook.price level == max_usd - total_cost)%Q)
        by (field; exact Hnz).
      rewrite <- Hq. apply Qmult_le_compat_r; [exact Hfill | apply Qlt_le_weak, Hp]. }
    lra.
Qed.

(** C10, in exact arithmetic.  If every level on the walked side has a
    positive price and the budget is not negative, [fillable_amount] returns
    a pair (no division by zero) whose cost is at most the budget; the pair
    is already determined by the levels before the first one that breaks the
    limit, each of which is priced at or below [max_price] on a BUY and at or
    above it on a SELL. *)
Theorem fillable_amount_within_budget (book : OrderBook.OrderBook Q) (side : string)
    (max_price max_usd : Q) :
  let levels :=
    if String.eqb side "BUY" then OrderBook.asks book else OrderBook.bids book in
  (forall level, In level levels -> (0 < OrderBook.price level)%Q) ->
  (0 <= max_usd)%Q ->
  exists contracts cost used rest,
    OrderBook.fillable_amount book side max_price max_usd = Ok (contracts, cost)
    /\ (cost <= max_usd)%Q
    /\ levels = used ++ rest
    /\ (forall level, In level used ->
          (side = "BUY"%string -> (OrderBook.price level <= max_price)%Q)
          /\ (side = "SELL"%string -> (max_price <= OrderBook.price level)%Q))
    /\ OrderBook.walk_levels used side max_price max_usd (of_int 0) (of_int 0)
       = Ok (contracts, cost).
Proof.
  intros levels Hpos Hbudget.
  assert (Hstart : (@of_int Q PyFloat_Q 0 <= max_usd)%Q) by exact Hbudget.
  destruct (walk_levels_budget_Q levels side max_price max_usd (of_int 0) (of_int 0)
              Hpos Hstart) as (contracts & cost & Hwalk & Hcost).
  destruct (within_limit_prefix side max_price levels) as [rest Hpre].
  exists contracts, cost, (within_limit side max_price levels), rest.
  split; [exact Hwalk|]. split; [exact Hcost|]. split; [exact Hpre|]. split.
  - intros level Hin. apply limit_ok_Q.
    exact (within_limit_ok side max_price levels level Hin).
  - rewrite <- walk_levels_within_limit. exact Hwalk.
Qed.

(** One ask of 1000 contracts at 0.27, bought with a budget of 10.00 and a
    limit of 1.00: in exact arithmetic the cost stays within the budget. *)
Lemma fillable_amount_within_budget_witness :
  let book :=
    OrderBook.OrderBook_init []
      [ {| OrderBook.price := 27 # 100; OrderBook.size := 1000 # 1 |} ] in
  exists contracts cost,
    OrderBook.fillable_amount book "BUY" (1 # 1) (10 # 1) = Ok (contracts, cost)
    /\ (cost <= 10 # 1)%Q.
Proof.
  cbv zeta.
  destruct (fillable_amount_within_budget
              (OrderBook.OrderBook_init []
                 [ {| OrderBook.price := 27 # 100; OrderBook.size := 1000 # 1 |} ])
              "BUY" (1 # 1) (10 # 1))
    as (contracts & cost & _ & _ & Hfill & Hcost & _).
  - intros level [<- | []]. reflexivity.
  - discriminate.
  - exists contracts, cost. split; [exact Hfill | exact Hcost].
Defined.

(** The claim as stated fails in binary64, the arithmetic Python runs: the
    same book, limit and budget (the price 0.27 is the double
    [0x1.147ae147ae148p-2]) meet every precondition, no division by zero
    occurs, and the returned cost 10.000000000000002 exceeds the budget
    10.0, because [(10.0 / 0.27) * 0.27] rounds upwards. *)
Lemma fillable_amount_rounding_counterexample :
  let level :=
    {| OrderBook.price := 0x1.147ae147ae148p-2%float;
       OrderBook.size := 1000%float |} in
  let book := OrderBook.OrderBook_init [] [level] in
  (PrimFloat.ltb 0%float (OrderBook.price level) = true
   /\ PrimFloat.leb 0%float 10%float = true
   /\ PrimFloat.leb (OrderBook.price level) 1%float = true)
  /\ exists contracts cost,
       OrderBook.fillable_amount book "BUY" 1%float 10%float
       = Ok (contracts, cost)
       /\ PrimFloat.ltb 10%float cost = true
       /\ PrimFloat.leb cost 10%float = false.
Proof.
  cbv zeta. split.
  - repeat split; vm_compute; reflexivity.
  - eexists. eexists. split; [vm_compute; reflexivity|].
    split; vm_compute; reflexivity.
Qed.

(* ================================================================== *)
(** * Part IV: further properties of the code *)
(* ================================================================== *)

(** ** Fee engine *)

Lemma net_margin_Q (settings : Settings Q) (r : Q) :
  (FeeEngine.net_margin settings r
   == 1 - r - FeeEngine.worst_case_fees settings)%Q.
Proof.
  unfold FeeEngine.net_margin, FeeEngine.fee_adjusted_cost.
  cbn [fadd fsub of_int PyFloat_Q]. change (inject_Z 1) with 1%Q. ring.
Qed.

(** X1.  Profitability is monotone in the raw cost: if a raw total is
    profitable, every raw total that is not larger is profitable too. *)
Theorem is_profitable_antitone (settings : Settings Q) (r1 r2 : Q) :
  (r1 <= r2)%Q ->
  FeeEngine.is_profitable settings r2 = true ->
  FeeEngine.is_profitable settings r1 = true.
Proof.
  intros Hle Hp. unfold FeeEngine.is_profitable, fgeb in *.
  apply fleb_Q_true. apply fleb_Q_true in Hp.
  rewrite net_margin_Q in *. lra.
Qed.

Lemma is_profitable_antitone_witness :
  FeeEngine.is_profitable default_settings (80 # 100) = true.
Proof.
  apply (is_profitable_antitone default_settings (80 # 100) (90 # 100)).
  - vm_compute. discriminate.
  - vm_compute. reflexivity.
Defined.

(** X2.  With a non-negative Kalshi fee and a positive slippage buffer the
    fees are a real cost: the fee-adjusted cost is strictly above the raw
    total and the net margin strictly below the raw margin [1 - r]. *)
Theorem fees_reduce_margin (settings : Settings Q) (r : Q) :
  (0 <= KALSHI_FEE_PER_CONTRACT settings)%Q ->
  (0 < SLIPPAGE_BUFFER settings)%Q ->
  (r < FeeEngine.fee_adjusted_cost settings r)%Q
  /\ (FeeEngine.net_margin settings r < 1 - r)%Q.
Proof.
  intros Hfee Hslip.
  assert (Hw : (0 < FeeEngine.worst_case_fees settings)%Q).
  { unfold FeeEngine.worst_case_fees, FeeEngine.kalshi_fee,
      FeeEngine.polymarket_fee. cbn [negb fadd PyFloat_Q]. rewrite py_max_Q.
    pose proof (Q.le_max_l (KALSHI_FEE_PER_CONTRACT settings)
                  (POLYMARKET_GAS_COST settings)). lra. }
  split.
  - unfold FeeEngine.fee_adjusted_cost. cbn [fadd PyFloat_Q]. lra.
  - rewrite net_margin_Q. lra.
Qed.

Lemma fees_reduce_margin_witness :
  ((90 # 100) < FeeEngine.fee_adjusted_cost default_settings (90 # 100))%Q
  /\ (FeeEngine.net_margin default_settings (90 # 100) < 1 - (90 # 100))%Q.
Proof.
  apply (fees_reduce_margin default_settings (90 # 100)).
  - vm_compute. discriminate.
  - vm_compute. reflexivity.
Defined.

(** ** Sorting *)

Section SortedBy.
Context {A K : Type} (key : A -> K) (before : K -> K -> bool).

Lemma insert_by_perm (x : A) (l : list A) :
  Permutation (insert_by key before x l) (x :: l).
Proof.
  induction l as [|y rest IH]; cbn; [apply Permutation_refl|].
  destruct (before (key x) (key y)); [apply Permutation_refl|].
  eapply Permutation_trans; [apply perm_skip, IH | apply perm_swap].
Qed.

Lemma sorted_by_perm (l : list A) : Permutation (sorted_by key before l) l.
Proof.
  unfold sorted_by.
  enough (G : forall acc,
            Permutation (fold_left (fun acc x => insert_by key before x acc) l acc)
                        (acc ++ l)) by exact (G []).
  induction l as [|x rest IH]; intros acc; cbn.
  - rewrite app_nil_r. apply Permutation_refl.
  - eapply Permutation_trans; [apply IH|].
    eapply Permutation_trans; [apply Permutation_app_tail, insert_by_perm|].
    cbn. apply Permutation_middle.
Qed.

(** An order [le] on keys that [before] decides strictly: [before a b]
    puts [a] at or below [b], and its failure puts [b] at or below [a]. *)
Variable le : K -> K -> Prop.
Hypothesis before_le : forall a b, before a b = true -> le a b.
Hypothesis not_before_le : forall a b, before a b = false -> le b a.

Lemma insert_by_sorted (x : A) (l : list A) :
  Sorted (fun a b => le (key a) (key b)) l ->
  Sorted (fun a b => le (key a) (key b)) (insert_by key before x l).
Proof.
  induction l as [|y rest IH]; intros Hs; cbn.
  - constructor; constructor.
  - destruct (before (key x) (key y)) eqn:E.
    + constructor; [exact Hs | constructor; apply before_le, E].
    + inversion Hs as [|? ? Hrest Hhd]; subst.
      constructor; [apply IH, Hrest|].
      destruct rest as [|z rest']; cbn.
      * constructor. apply not_before_le, E.
      * destruct (before (key x) (key z)).
        -- constructor. apply not_before_le, E.
        -- inversion Hhd; subst. constructor. assumption.
Qed.

Lemma sorted_by_sorted (l : list A) :
  Sorted (fun a b => le (key a) (key b)) (sorted_by key before l).
Proof.
  unfold sorted_by.
  enough (G : forall acc,
            Sorted (fun a b => le (key a) (key b)) acc ->
            Sorted (fun a b => le (key a) (key b))
                   (fold_left (fun acc x => insert_by key before x acc) l acc))
    by (apply G; constructor).
  induction l as [|x rest IH]; intros acc Hacc; cbn; [exact Hacc|].
  apply IH, insert_by_sorted, Hacc.
Qed.
End SortedBy.

(** ** Arbitrage detector *)

(** X3.  Whatever the inputs, the opportunities returned by
    [find_opportunities] are exactly the returned checks whose
    [is_arbitrage] flag is set, in the order of the checks. *)
Theorem opportunities_are_flagged_checks {F : Type} `{PyFloat F}
    (settings : Settings F) (poly_data : Arbitrage.PolymarketData F)
    (kalshi_data : Arbitrage.KalshiData F) :
  snd (Arbitrage.find_opportunities settings poly_data kalshi_data)
  = filter Arbitrage.is_arbitrage
      (fst (Arbitrage.find_opportunities settings poly_data kalshi_data)).
Proof.
  destruct (Arbitrage.price_to_beat poly_data) as [K|] eqn:E.
  - rewrite (find_opportunities_spec settings poly_data kalshi_data K E).
    reflexivity.
  - unfold Arbitrage.find_opportunities. rewrite E. reflexivity.
Qed.

(** X4.  Without a reference strike, or with no Kalshi market listed, the
    detector returns two empty lists. *)
Theorem find_opportunities_nothing_to_scan {F : Type} `{PyFloat F}
    (settings : Settings F) (poly_data : Arbitrage.PolymarketData F)
    (kalshi_data : Arbitrage.KalshiData F) :
  Arbitrage.price_to_beat poly_data = None
  \/ Arbitrage.markets kalshi_data = [] ->
  Arbitrage.find_opportunities settings poly_data kalshi_data = ([], []).
Proof.
  intros [Hnone | Hempty]; unfold Arbitrage.find_opportunities.
  - rewrite Hnone. reflexivity.
  - destruct (Arbitrage.price_to_beat poly_data); [|reflexivity].
    unfold Arbitrage.selected_markets. rewrite Hempty. reflexivity.
Qed.

Lemma find_opportunities_nothing_to_scan_witness :
  Arbitrage.find_opportunities default_settings sample_poly_data
    {| Arbitrage.event_ticker := "KXBTCD-26FEB1621"; Arbitrage.markets := [] |}
  = ([], []).
Proof.
  apply (find_opportunities_nothing_to_scan default_settings sample_poly_data).
  right. reflexivity.
Defined.

Lemma In_firstn {A : Type} (n : nat) (l : list A) (x : A) :
  In x (firstn n l) -> In x l.
Proof.
  revert l. induction n as [|n IH]; intros [|y l]; cbn; try tauto.
  intros [-> | Hin]; [left; reflexivity | right; apply IH, Hin].
Qed.

Lemma In_skipn {A : Type} (n : nat) (l : list A) (x : A) :
  In x (skipn n l) -> In x l.
Proof.
  revert l. induction n as [|n IH]; intros [|y l]; cbn; try tauto.
  intros Hin. right. apply IH, Hin.
Qed.

Lemma py_slice_incl {A : Type} (l : list A) (start stop : Z) (x : A) :
  In x (py_slice l start stop) -> In x l.
Proof.
  unfold py_slice. intros Hin. eapply In_skipn, In_firstn, Hin.
Qed.

Lemma selected_markets_listed (Kstar : Q) (kalshi_data : Arbitrage.KalshiData Q)
    (km : Arbitrage.KalshiMarket Q) :
  In km (Arbitrage.selected_markets Kstar kalshi_data) ->
  In km (Arbitrage.markets kalshi_data).
Proof.
  unfold Arbitrage.selected_markets, Arbitrage._select_nearby_markets.
  cbv zeta. intros Hin.
  eapply Permutation_in; [apply (sorted_by_perm Arbitrage.strike fltb)|].
  destruct (sorted_by Arbitrage.strike fltb (Arbitrage.markets kalshi_data))
    as [|m0 rest]; [destruct Hin|].
  eapply py_slice_incl. exact Hin.
Qed.

(** X5.  Every check the detector returns is about a listed Kalshi market,
    priced at that market's asks in dollars, and its derived figures are
    consistent: total cost is the sum of the two legs, the margin is one
    minus the total, the fee-adjusted cost adds the worst-case fees, the net
    margin is one minus the fee-adjusted cost, and the check is flagged
    exactly when the net margin reaches the minimum. *)
Theorem returned_checks_consistent (settings : Settings Q)
    (poly_data : Arbitrage.PolymarketData Q) (kalshi_data : Arbitrage.KalshiData Q)
    (c : Arbitrage.ArbitrageCheck Q) :
  In c (fst (Arbitrage.find_opportunities settings poly_data kalshi_data)) ->
  (exists km, In km (Arbitrage.markets kalshi_data)
              /\ Arbitrage.kalshi_strike c = Arbitrage.strike km
              /\ Arbitrage.kalshi_yes c
                 = (inject_Z (Arbitrage.yes_ask km) / inject_Z 100)%Q
              /\ Arbitrage.kalshi_no c
                 = (inject_Z (Arbitrage.no_ask km) / inject_Z 100)%Q)
  /\ Arbitrage.total_cost c = (Arbitrage.poly_cost c + Arbitrage.kalshi_cost c)%Q
  /\ Arbitrage.margin c = (1 - Arbitrage.total_cost c)%Q
  /\ Arbitrage.fee_adjusted_cost c
     = (Arbitrage.total_cost c + FeeEngine.worst_case_fees settings)%Q
  /\ Arbitrage.net_margin c = (1 - Arbitrage.fee_adjusted_cost c)%Q
  /\ (Arbitrage.is_arbitrage c = true
      <-> (MIN_NET_MARGIN settings <= Arbitrage.net_margin c)%Q).
Proof.
  intros Hin.
  destruct (Arbitrage.price_to_beat poly_data) as [K|] eqn:E.
  2:{ unfold Arbitrage.find_opportunities in Hin. rewrite E in Hin. destruct Hin. }
  rewrite (find_opportunities_spec settings poly_data kalshi_data K E) in Hin.
  cbn [fst] in Hin. apply in_flat_map in Hin. destruct Hin as (km & Hkm & Hc).
  apply selected_markets_listed in Hkm.
  assert (Hshape : exists ty pl kl pc kc,
            c = Arbitrage._build_check settings (Arbitrage.strike km)
                  (inject_Z (Arbitrage.yes_ask km) / inject_Z 100)%Q
                  (inject_Z (Arbitrage.no_ask km) / inject_Z 100)%Q
                  ty pl kl pc kc).
  { unfold Arbitrage.strategy_checks in Hc. cbv zeta in Hc.
    destruct (fgtb _ _); [|destruct (fltb _ _)]; cbn [In] in Hc;
      repeat (destruct Hc as [<- | Hc]; [do 5 eexists; reflexivity|]);
      destruct Hc. }
  destruct Hshape as (ty & pl & kl & pc & kc & ->).
  split; [exists km; cbn; auto|].
  cbn. repeat split.
  - unfold FeeEngine.is_profitable, fgeb. apply fleb_Q_true.
  - unfold FeeEngine.is_profitable, fgeb. apply fleb_Q_true.
Qed.

Lemma returned_checks_consistent_witness :
  let c :=
    Arbitrage._build_check default_settings (94000 # 1)
      (inject_Z 92 / inject_Z 100)%Q (inject_Z 8 / inject_Z 100)%Q
      "Poly > Kalshi" "Down" "Yes" (45 # 100) (inject_Z 92 / inject_Z 100)%Q in
  Arbitrage.total_cost c = (Arbitrage.poly_cost c + Arbitrage.kalshi_cost c)%Q
  /\ Arbitrage.is_arbitrage c = false.
Proof.
  cbv zeta.
  destruct (returned_checks_consistent default_settings sample_poly_data
              sample_kalshi_data
              (Arbitrage._build_check default_settings (94000 # 1)
                 (inject_Z 92 / inject_Z 100)%Q (inject_Z 8 / inject_Z 100)%Q
                 "Poly > Kalshi" "Down" "Yes" (45 # 100)
                 (inject_Z 92 / inject_Z 100)%Q))
    as (_ & Htotal & _).
  - left. reflexivity.
  - split; [exact Htotal | reflexivity].
Defined.

(** X6.  The markets the detector scans are in ascending order of strike
    and are all among the listed markets. *)
Theorem scanned_markets_ascending (Kstar : Q) (kalshi_data : Arbitrage.KalshiData Q) :
  Sorted (fun a b => (Arbitrage.strike a <= Arbitrage.strike b)%Q)
         (Arbitrage.selected_markets Kstar kalshi_data)
  /\ incl (Arbitrage.selected_markets Kstar kalshi_data)
          (Arbitrage.markets kalshi_data).
Proof.
  split; [|intros km; apply selected_markets_listed].
  assert (Hs : Sorted (fun a b => (Arbitrage.strike a <= Arbitrage.strike b)%Q)
                 (sorted_by Arbitrage.strike fltb (Arbitrage.markets kalshi_data))).
  { apply sorted_by_sorted.
    - intros a b Hb. apply Qlt_le_weak, fltb_Q_true, Hb.
    - intros a b Hb. apply fltb_Q_false, Hb. }
  unfold Arbitrage.selected_markets, Arbitrage._select_nearby_markets. cbv zeta.
  destruct (sorted_by Arbitrage.strike fltb (Arbitrage.markets kalshi_data))
    as [|m0 rest] eqn:Es; [constructor|].
  rewrite <- Es in *. unfold py_slice.
  remember (Z.to_nat (clamp_index _ (Z.max 0 _))) as s eqn:Hs'.
  remember (Z.to_nat (_ - _)) as n eqn:Hn. clear Hs' Hn Es.
  assert (Hskip : forall (l : list (Arbitrage.KalshiMarket Q)) k,
            Sorted (fun a b => (Arbitrage.strike a <= Arbitrage.strike b)%Q) l ->
            Sorted (fun a b => (Arbitrage.strike a <= Arbitrage.strike b)%Q)
                   (skipn k l)).
  { intros l k. revert l. induction k as [|k IH]; intros [|y l] Hl; cbn;
      try exact Hl. inversion Hl; subst. apply IH. assumption. }
  assert (Hfirst : forall k (l : list (Arbitrage.KalshiMarket Q)),
            Sorted (fun a b => (Arbitrage.strike a <= Arbitrage.strike b)%Q) l ->
            Sorted (fun a b => (Arbitrage.strike a <= Arbitrage.strike b)%Q)
                   (firstn k l)).
  { induction k as [|k IH]; intros [|y l] Hl; cbn; try constructor.
    - inversion Hl; subst. apply IH. assumption.
    - inversion Hl as [|? ? _ Hhd]; subst.
      destruct k, l; cbn; constructor. inversion Hhd; subst. assumption. }
  apply Hfirst, Hskip, Hs.
Qed.

(** ** Order book *)

Lemma fold_left_Qplus_acc (l : list Q) (a : Q) :
  (fold_left Qplus l a == a + fold_left Qplus l 0)%Q.
Proof.
  revert a. induction l as [|x l IH]; intros a; cbn; [ring|].
  rewrite (IH (a + x)%Q), (IH (0 + x)%Q). ring.
Qed.

Lemma py_sum_nil_Q : (OrderBook.py_sum (F := Q) [] == 0)%Q.
Proof. reflexivity. Qed.

Lemma py_sum_cons_Q (x : Q) (l : list Q) :
  (OrderBook.py_sum (x :: l) == x + OrderBook.py_sum l)%Q.
Proof.
  unfold OrderBook.py_sum. cbn [fold_left fadd of_int PyFloat_Q].
  rewrite fold_left_Qplus_acc. change (inject_Z 0) with 0%Q. ring.
Qed.

Lemma py_sum_nonneg_Q (l : list Q) :
  (forall x, In x l -> (0 <= x)%Q) -> (0 <= OrderBook.py_sum l)%Q.
Proof.
  induction l as [|x l IH]; intros Hpos.
  - rewrite py_sum_nil_Q. apply Qle_refl.
  - rewrite py_sum_cons_Q.
    assert (0 <= x)%Q by (apply Hpos; left; reflexivity).
    assert (0 <= OrderBook.py_sum l)%Q by (apply IH; intros y Hy; apply Hpos; right; exact Hy).
    lra.
Qed.

(** The sizes on offer at levels that do not break the limit. *)
Lemma sizes_within_limit_nonneg (side : string) (max_price : Q)
    (levels : list (OrderBook.OrderBookLevel Q)) :
  (forall level, In level levels -> (0 <= OrderBook.size level)%Q) ->
  (0 <= OrderBook.py_sum
          (map OrderBook.size (filter (limit_ok side max_price) levels)))%Q.
Proof.
  intros Hsz. apply py_sum_nonneg_Q. intros x Hx.
  apply in_map_iff in Hx. destruct Hx as (l & <- & Hl).
  apply filter_In in Hl. apply Hsz, Hl.
Qed.

(** What a walk adds to the running totals, in exact arithmetic, when
    prices are positive and sizes are not negative: a non-negative number
    of contracts, no more than the sizes on offer within the limit, at an
    average price on the right side of the limit. *)
Lemma walk_levels_fills_Q (levels : list (OrderBook.OrderBookLevel Q)) (side : string)
    (max_price max_usd total_contracts total_cost contracts cost : Q) :
  (forall level, In level levels ->
     (0 < OrderBook.price level)%Q /\ (0 <= OrderBook.size level)%Q) ->
  OrderBook.walk_levels levels side max_price max_usd total_contracts total_cost
  = Ok (contracts, cost) ->
  (total_contracts <= contracts)%Q
  /\ (contracts
      <= total_contracts
         + OrderBook.py_sum
             (map OrderBook.size (filter (limit_ok side max_price) levels)))%Q
  /\ (side = "BUY"%string ->
      (cost - total_cost <= (contracts - total_contracts) * max_price)%Q)
  /\ (side = "SELL"%string ->
      ((contracts - total_contracts) * max_price <= cost - total_cost)%Q).
Proof.
  revert total_contracts total_cost.
  induction levels as [|level rest IH]; intros tc tcost Hok Hwalk.
  - cbn in Hwalk. injection Hwalk as <- <-. rewrite py_sum_nil_Q.
    repeat split; intros; lra.
  - assert (Hrest : forall l, In l rest ->
              (0 < OrderBook.price l)%Q /\ (0 <= OrderBook.size l)%Q)
      by (intros l Hl; apply Hok; right; exact Hl).
    destruct (Hok level (or_introl eq_refl)) as [Hp Hs].
    pose proof (sizes_within_limit_nonneg side max_price (level :: rest)
                  (fun l Hl => proj2 (Hok l Hl))) as Hall.
    assert (Hstop : (tc <= tc)%Q
              /\ (tc <= tc + OrderBook.py_sum
                              (map OrderBook.size
                                 (filter (limit_ok side max_price) (level :: rest))))%Q
              /\ (side = "BUY"%string -> (tcost - tcost <= (tc - tc) * max_price)%Q)
              /\ (side = "SELL"%string -> ((tc - tc) * max_price <= tcost - tcost)%Q)).
    { repeat split; intros; lra. }
    cbn [OrderBook.walk_levels] in Hwalk.
    destruct (String.eqb side "BUY" && fgtb (OrderBook.price level) max_price) eqn:Ebuy.
    { injection Hwalk as <- <-. exact Hstop. }
    destruct (String.eqb side "SELL" && fltb (OrderBook.price level) max_price) eqn:Esell.
    { injection Hwalk as <- <-. exact Hstop. }
    cbv zeta in Hwalk.
    destruct (fleb (fsub max_usd tcost) (of_int 0)) eqn:Erem.
    { injection Hwalk as <- <-. exact Hstop. }
    clear Hstop Hall.
    assert (Hlim : limit_ok side max_price level = true)
      by (unfold limit_ok; rewrite Ebuy, Esell; reflexivity).
    cbn [filter]. rewrite Hlim.
    apply fleb_Q_false in Erem.
    unfold py_div in Hwalk.
    assert (Hnz : ~ (OrderBook.price level == 0)%Q).
    { intros E. rewrite E in Hp. exact (Qlt_irrefl 0 Hp). }
    assert (Ez : feqb (OrderBook.price level) (of_int 0) = false).
    { cbn. destruct (Qeq_bool (OrderBook.price level) (inject_Z 0)) eqn:E;
        [|reflexivity].
      apply Qeq_bool_eq in E. exfalso. apply Hnz. exact E. }
    rewrite Ez in Hwalk.
    set (aff := fdiv (fsub max_usd tcost) (OrderBook.price level)) in *.
    assert (Haff : (0 < aff)%Q).
    { unfold aff. cbn [fdiv fsub of_int PyFloat_Q] in *.
      change (inject_Z 0) with 0%Q in Erem.
      apply Qlt_shift_div_l; [exact Hp | lra]. }
    set (fill := py_min (OrderBook.size level) aff) in *.
    assert (Hfill : (0 <= fill)%Q /\ (fill <= OrderBook.size level)%Q).
    { unfold fill, py_min. destruct (fltb aff (OrderBook.size level)) eqn:E.
      - apply fltb_Q_true in E. split; lra.
      - split; [exact Hs | apply Qle_refl]. }
    destruct Hfill as [Hf0 Hfs].
    destruct (IH _ _ Hrest Hwalk) as (H1 & H2 & H3 & H4).
    cbn [fadd fmul PyFloat_Q] in *.
    cbn [map] in *. rewrite py_sum_cons_Q in *.
    repeat split.
    + lra.
    + lra.
    + intros ->. specialize (H3 eq_refl). cbn in Ebuy.
      apply fltb_Q_false in Ebuy.
      assert ((OrderBook.price level * fill <= max_price * fill)%Q)
        by (apply Qmult_le_compat_r; assumption).
      lra.
    + intros ->. specialize (H4 eq_refl). cbn in Esell.
      apply fltb_Q_false in Esell.
      assert ((max_price * fill <= OrderBook.price level * fill)%Q)
        by (apply Qmult_le_compat_r; assumption).
      lra.
Qed.

Lemma limit_ok_buy_Q (max_price : Q) (level : OrderBook.OrderBookLevel Q) :
  limit_ok "BUY" max_price level = fleb (OrderBook.price level) max_price.
Proof.
  unfold limit_ok, fgtb. cbn. rewrite andb_true_r. apply negb_involutive.
Qed.

Lemma limit_ok_sell_Q (max_price : Q) (level : OrderBook.OrderBookLevel Q) :
  limit_ok "SELL" max_price level = fgeb (OrderBook.price level) max_price.
Proof.
  unfold limit_ok, fgeb. cbn. apply negb_involutive.
Qed.

(** A small two-sided book. *)
Lemma sample_book_levels (level : OrderBook.OrderBookLevel Q) :
  In level [ {| OrderBook.price := 27 # 100; OrderBook.size := 20 # 1 |};
             {| OrderBook.price := 30 # 100; OrderBook.size := 50 # 1 |} ] ->
  (0 < OrderBook.price level)%Q /\ (0 <= OrderBook.size level)%Q.
Proof.
  intros [<- | [<- | []]]; split; cbn; reflexivity || discriminate.
Qed.

(** X7.  In exact arithmetic, with positive prices and non-negative sizes
    on the walked side, a fill is a non-negative number of contracts and
    never more than the book offers within the limit: for a BUY at most
    [total_ask_liquidity(max_price)], for a SELL at most
    [total_bid_liquidity(max_price)]. *)
Theorem fill_bounded_by_liquidity (book : OrderBook.OrderBook Q)
    (max_price max_usd contracts cost : Q) :
  ((forall level, In level (OrderBook.asks book) ->
      (0 < OrderBook.price level)%Q /\ (0 <= OrderBook.size level)%Q) ->
   OrderBook.fillable_amount book "BUY" max_price max_usd = Ok (contracts, cost) ->
   (0 <= contracts)%Q
   /\ (contracts <= OrderBook.total_ask_liquidity book max_price)%Q)
  /\ ((forall level, In level (OrderBook.bids book) ->
         (0 < OrderBook.price level)%Q /\ (0 <= OrderBook.size level)%Q) ->
      OrderBook.fillable_amount book "SELL" max_price max_usd = Ok (contracts, cost) ->
      (0 <= contracts)%Q
      /\ (contracts <= OrderBook.total_bid_liquidity book max_price)%Q).
Proof.
  split; intros Hok Hfill; unfold OrderBook.fillable_amount in Hfill;
    cbn [String.eqb Ascii.eqb Bool.eqb] in Hfill;
    destruct (walk_levels_fills_Q _ _ _ _ _ _ _ _ Hok Hfill) as (H1 & H2 & _);
    change (@of_int Q PyFloat_Q 0) with 0%Q in *.
  - unfold OrderBook.total_ask_liquidity.
    rewrite (filter_ext _ _ (limit_ok_buy_Q max_price)) in H2. split; lra.
  - unfold OrderBook.total_bid_liquidity.
    rewrite (filter_ext _ _ (limit_ok_sell_Q max_price)) in H2. split; lra.
Qed.

Lemma fill_bounded_by_liquidity_witness :
  let book :=
    OrderBook.OrderBook_init []
      [ {| OrderBook.price := 27 # 100; OrderBook.size := 20 # 1 |};
        {| OrderBook.price := 30 # 100; OrderBook.size := 50 # 1 |} ] in
  match OrderBook.fillable_amount book "BUY" (28 # 100) (10 # 1) with
  | Ok (contracts, _) =>
      (0 <= contracts)%Q
      /\ (contracts <= OrderBook.total_ask_liquidity book (28 # 100))%Q
  | Raise _ => False
  end.
Proof.
  cbv zeta.
  destruct (OrderBook.fillable_amount
              (OrderBook.OrderBook_init []
                 [ {| OrderBook.price := 27 # 100; OrderBook.size := 20 # 1 |};
                   {| OrderBook.price := 30 # 100; OrderBook.size := 50 # 1 |} ])
              "BUY" (28 # 100) (10 # 1)) as [[contracts cost]|e] eqn:E.
  - apply (proj1 (fill_bounded_by_liquidity _ (28 # 100) (10 # 1) contracts cost));
      [exact sample_book_levels | exact E].
  - vm_compute in E. discriminate.
Defined.

(** X8.  Under the same conditions the average price of a fill is on the
    right side of the limit: a BUY costs at most [contracts * max_price],
    a SELL brings at least [contracts * max_price]. *)
Theorem fill_average_price_within_limit (book : OrderBook.OrderBook Q)
    (max_price max_usd contracts cost : Q) :
  ((forall level, In level (OrderBook.asks book) ->
      (0 < OrderBook.price level)%Q /\ (0 <= OrderBook.size level)%Q) ->
   OrderBook.fillable_amount book "BUY" max_price max_usd = Ok (contracts, cost) ->
   (cost <= contracts * max_price)%Q)
  /\ ((forall level, In level (OrderBook.bids book) ->
         (0 < OrderBook.price level)%Q /\ (0 <= OrderBook.size level)%Q) ->
      OrderBook.fillable_amount book "SELL" max_price max_usd = Ok (contracts, cost) ->
      (contracts * max_price <= cost)%Q).
Proof.
  split; intros Hok Hfill; unfold OrderBook.fillable_amount in Hfill;
    cbn [String.eqb Ascii.eqb Bool.eqb] in Hfill;
    destruct (walk_levels_fills_Q _ _ _ _ _ _ _ _ Hok Hfill) as (_ & _ & Hb & Hs);
    change (@of_int Q PyFloat_Q 0) with 0%Q in *.
  - specialize (Hb eq_refl). lra.
  - specialize (Hs eq_refl). lra.
Qed.

Lemma fill_average_price_within_limit_witness :
  let book :=
    OrderBook.OrderBook_init
      [ {| OrderBook.price := 27 # 100; OrderBook.size := 20 # 1 |};
        {| OrderBook.price := 30 # 100; OrderBook.size := 50 # 1 |} ] [] in
  match OrderBook.fillable_amount book "SELL" (28 # 100) (10 # 1) with
  | Ok (contracts, cost) => (contracts * (28 # 100) <= cost)%Q
  | Raise _ => False
  end.
Proof.
  cbv zeta.
  destruct (OrderBook.fillable_amount
              (OrderBook.OrderBook_init
                 [ {| OrderBook.price := 27 # 100; OrderBook.size := 20 # 1 |};
                   {| OrderBook.price := 30 # 100; OrderBook.size := 50 # 1 |} ] [])
              "SELL" (28 # 100) (10 # 1)) as [[contracts cost]|e] eqn:E.
  - apply (proj2 (fill_average_price_within_limit
                    (OrderBook.OrderBook_init
                       [ {| OrderBook.price := 27 # 100; OrderBook.size := 20 # 1 |};
                         {| OrderBook.price := 30 # 100; OrderBook.size := 50 # 1 |} ]
                       [])
                    (28 # 100) (10 # 1) contracts cost)); [|exact E].
    intros level Hin. vm_compute in Hin.
    destruct Hin as [<- | [<- | []]]; split; cbn; reflexivity || discriminate.
  - vm_compute in E. discriminate.
Defined.

(** X9.  With nothing to spend ([max_usd <= 0]) the walk fills nothing:
    the result is [(0, 0)] for every book, side and limit, and no price is
    ever divided by. *)
Theorem fillable_amount_no_budget (book : OrderBook.OrderBook Q) (side : string)
    (max_price max_usd : Q) :
  (max_usd <= 0)%Q ->
  OrderBook.fillable_amount book side max_price max_usd
  = Ok (inject_Z 0, inject_Z 0).
Proof.
  intros Hbudget. unfold OrderBook.fillable_amount.
  destruct (if String.eqb side "BUY" then OrderBook.asks book
            else OrderBook.bids book) as [|level rest]; [reflexivity|].
  cbn [OrderBook.walk_levels].
  destruct (String.eqb side "BUY" && _); [reflexivity|].
  destruct (String.eqb side "SELL" && _); [reflexivity|].
  cbv zeta.
  assert (E : fleb (fsub max_usd (of_int 0)) (of_int 0) = true).
  { apply fleb_Q_true. cbn [fsub of_int PyFloat_Q].
    change (inject_Z 0) with 0%Q. lra. }
  rewrite E. reflexivity.
Qed.

Lemma fillable_amount_no_budget_witness :
  OrderBook.fillable_amount
    (OrderBook.OrderBook_init []
       [ {| OrderBook.price := 0 # 1; OrderBook.size := 20 # 1 |} ])
    "BUY" (1 # 1) (0 # 1)
  = Ok (inject_Z 0, inject_Z 0).
Proof.
  apply fillable_amount_no_budget. discriminate.
Defined.

(** X10.  The division is unguarded: when there is money to spend and the
    first level on the walked side does not break the limit but is priced
    at zero, [fillable_amount] raises [ZeroDivisionError]. *)
Theorem fillable_amount_zero_price (book : OrderBook.OrderBook Q) (side : string)
    (max_price max_usd : Q) (level : OrderBook.OrderBookLevel Q)
    (rest : list (OrderBook.OrderBookLevel Q)) :
  (if String.eqb side "BUY" then OrderBook.asks book else OrderBook.bids book)
  = level :: rest ->
  (OrderBook.price level == 0)%Q ->
  limit_ok side max_price level = true ->
  (0 < max_usd)%Q ->
  OrderBook.fillable_amount book side max_price max_usd = Raise ZeroDivisionError.
Proof.
  intros Hlevels Hzero Hlim Hbudget. unfold OrderBook.fillable_amount.
  rewrite Hlevels. cbn [OrderBook.walk_levels].
  unfold limit_ok in Hlim. apply andb_true_iff in Hlim.
  destruct Hlim as [Hb Hs]. apply negb_true_iff in Hb, Hs. rewrite Hb, Hs.
  cbv zeta.
  assert (E : fleb (fsub max_usd (of_int 0)) (of_int 0) = false).
  { apply fleb_Q_false. cbn [fsub of_int PyFloat_Q].
    change (inject_Z 0) with 0%Q. lra. }
  rewrite E. unfold py_div.
  assert (Ez : feqb (OrderBook.price level) (of_int 0) = true)
    by (cbn; apply Qeq_bool_iff; exact Hzero).
  rewrite Ez. reflexivity.
Qed.

Lemma fillable_amount_zero_price_witness :
  OrderBook.fillable_amount
    (OrderBook.OrderBook_init []
       [ {| OrderBook.price := 0 # 1; OrderBook.size := 20 # 1 |};
         {| OrderBook.price := 30 # 100; OrderBook.size := 50 # 1 |} ])
    "BUY" (1 # 1) (10 # 1)
  = Raise ZeroDivisionError.
Proof.
  apply (fillable_amount_zero_price _ "BUY" (1 # 1) (10 # 1)
           {| OrderBook.price := 0 # 1; OrderBook.size := 20 # 1 |}
           [ {| OrderBook.price := 30 # 100; OrderBook.size := 50 # 1 |} ]);
    reflexivity.
Defined.

(** X11.  The side is matched exactly: for any side other than ["BUY"] and
    ["SELL"] (["buy"], say) the bids are walked and no price limit applies,
    so the result is the same for every [max_price]. *)
Theorem fillable_amount_other_side {F : Type} `{PyFloat F}
    (book : OrderBook.OrderBook F) (side : string)
    (max_price max_price' max_usd : F) :
  String.eqb side "BUY" = false ->
  String.eqb side "SELL" = false ->
  OrderBook.fillable_amount book side max_price max_usd
  = OrderBook.fillable_amount book side max_price' max_usd
  /\ OrderBook.fillable_amount book side max_price max_usd
     = OrderBook.walk_levels (OrderBook.bids book) side max_price max_usd
         (of_int 0) (of_int 0).
Proof.
  intros Hbuy Hsell. unfold OrderBook.fillable_amount. rewrite Hbuy.
  split; [|reflexivity].
  assert (G : forall levels tc tcost,
            OrderBook.walk_levels levels side max_price max_usd tc tcost
            = OrderBook.walk_levels levels side max_price' max_usd tc tcost).
  { induction levels as [|level rest IH]; intros tc tcost; [reflexivity|].
    cbn [OrderBook.walk_levels]. rewrite Hbuy, Hsell. cbn [andb]. cbv zeta.
    destruct (fleb _ _); [reflexivity|].
    destruct (py_div _ _); [apply IH | reflexivity]. }
  apply G.
Qed.

Lemma fillable_amount_other_side_witness :
  let book :=
    OrderBook.OrderBook_init
      [ {| OrderBook.price := 27 # 100; OrderBook.size := 20 # 1 |} ]
      [ {| OrderBook.price := 30 # 100; OrderBook.size := 50 # 1 |} ] in
  OrderBook.fillable_amount book "buy" (1 # 100) (10 # 1)
  = OrderBook.fillable_amount book "buy" (99 # 100) (10 # 1).
Proof.
  cbv zeta.
  apply (proj1 (fillable_amount_other_side _ "buy" (1 # 100) (99 # 100) (10 # 1)
                  eq_refl eq_refl)).
Defined.
